(** * Address-file normaliser ([Challange.py]): model and properties

    The program reads address records from markup (.xml), tabular (.tsv)
    and plain-text (.txt) files, turns each into a dictionary with the
    keys [name], [organization], [street], [city], [state], [zip], sorts
    the collected dictionaries by [zip] and prints them.

    Conventions of the model:
    - a Python [str] is a [string]; its characters are the code points
      0..255, compared by code point;
    - a Python [dict] with string keys is a [gmap string _];
    - a Python exception is the [Raise] branch of [result];
    - the three parsers of the standard library that the program calls
      ([ET.parse], [csv.DictReader], [file.read]) are the fields of a
      [World]: what they return for a given path. *)

From Stdlib Require Import Ascii String ZArith Lia.
From stdpp Require Import gmap strings list sorting.

Local Open Scope string_scope.

(** ** Python string primitives *)

Module Py.

(** [str.isspace] on one character, for the code points below 256:
    U+0009..U+000D, U+001C..U+001F, U+0020, U+0085 and U+00A0. *)
Definition isspace (c : ascii) : bool :=
  let n := nat_of_ascii c in
  ((9 <=? n)%nat && (n <=? 13)%nat) || ((28 <=? n)%nat && (n <=? 32)%nat)
  || (n =? 133)%nat || (n =? 160)%nat.

(** Truth value of a string: the empty string is false. *)
Definition truthy (s : string) : bool :=
  match s with EmptyString => false | String _ _ => true end.

Fixpoint lstrip (s : string) : string :=
  match s with
  | String c r => if isspace c then lstrip r else s
  | EmptyString => EmptyString
  end.

Fixpoint rstrip (s : string) : string :=
  match s with
  | String c r =>
      match rstrip r with
      | EmptyString => if isspace c then EmptyString else String c EmptyString
      | r' => String c r'
      end
  | EmptyString => EmptyString
  end.

(** [s.strip()] *)
Definition strip (s : string) : string := rstrip (lstrip s).

(** [s.split()]: the maximal runs of non-whitespace characters. *)
Fixpoint split_ws (s : string) : list string :=
  match s with
  | EmptyString => []
  | String c r =>
      if isspace c then split_ws r
      else match r with
           | EmptyString => [String c EmptyString]
           | String c' _ =>
               if isspace c' then String c EmptyString :: split_ws r
               else match split_ws r with
                    | t :: ts => String c t :: ts
                    | [] => [String c EmptyString]
                    end
           end
  end.

(** Puts a character in front of the first piece of a split. *)
Definition cons_head (c : ascii) (l : list string) : list string :=
  match l with
  | h :: t => String c h :: t
  | [] => [String c EmptyString]
  end.

(** [s.split(sep)] for a non-empty [sep] (every call of the program passes
    a literal): the pieces between the occurrences of [sep] found from left
    to right, without overlap.  [skip] counts the characters of a found
    separator that are still to be passed. *)
Fixpoint split_go (sep : string) (skip : nat) (s : string) : list string :=
  match s with
  | EmptyString => [EmptyString]
  | String c r =>
      match skip with
      | S k => split_go sep k r
      | O =>
          if String.prefix sep s
          then EmptyString :: split_go sep (String.length sep - 1) r
          else cons_head c (split_go sep 0 r)
      end
  end.

Definition split (sep s : string) : list string := split_go sep 0 s.

(** [s.replace(old, new)] for a non-empty [old] (the program passes a
    literal): every occurrence of [old] found from left to right, without
    overlap, becomes [new]. *)
Fixpoint replace_go (old new : string) (skip : nat) (s : string) : string :=
  match s with
  | EmptyString => EmptyString
  | String c r =>
      match skip with
      | S k => replace_go old new k r
      | O =>
          if String.prefix old s
          then new ++ replace_go old new (String.length old - 1) r
          else String c (replace_go old new 0 r)
      end
  end.

Definition replace (old new s : string) : string := replace_go old new 0 s.

(** [sub in s] *)
Fixpoint contains (sub s : string) : bool :=
  String.prefix sub s
  || match s with String _ r => contains sub r | EmptyString => false end.

(** [s.endswith(suf)] *)
Definition endswith (s suf : string) : bool :=
  let n := String.length s in
  let m := String.length suf in
  (m <=? n)%nat && String.eqb (substring (n - m) m s) suf.

(** [sep.join(l)] is [String.concat sep l]. *)
Definition join (sep : string) (l : list string) : string := String.concat sep l.

End Py.

(** ** Exceptions and results *)

Inductive exn : Type :=
| KeyError (k : string)
| IndexError
| AttributeError
| ParseError
| OSError.

Inductive result (A : Type) : Type :=
| Ok (a : A)
| Raise (e : exn).
Arguments Ok {A} a.
Arguments Raise {A} e.

#[global] Instance result_ret : MRet result := fun A a => Ok a.
#[global] Instance result_bind : MBind result :=
  fun A B f m => match m with Ok a => f a | Raise e => Raise e end.

(** The body of a [for] loop run on each element in turn, the results
    appended to a list; the first exception ends the loop. *)
Fixpoint for_each {A B : Type} (f : A -> result B) (l : list A) : result (list B) :=
  match l with
  | [] => Ok []
  | x :: l' => y ← f x; ys ← for_each f l'; Ok (y :: ys)
  end.

(** [d[k]] on a dictionary *)
Definition getitem {V : Type} (d : gmap string V) (k : string) : result V :=
  match d !! k with
  | Some v => Ok v
  | None => Raise (KeyError k)
  end.

(** [l[i]] on a list, for [i >= 0] *)
Definition index {A : Type} (l : list A) (i : nat) : result A :=
  match l !! i with
  | Some x => Ok x
  | None => Raise IndexError
  end.

(** [l[-1]] *)
Definition index_last {A : Type} (l : list A) : result A :=
  match last l with
  | Some x => Ok x
  | None => Raise IndexError
  end.

Definition nl : string := String "010" EmptyString.
Definition nlnl : string := String "010" (String "010" EmptyString).

(** ** The data of the program *)

(** A Canonical Address Record: the dictionary [address]. *)
Abbreviation addr_dict := (gmap string string).

(** A child of an ENT element: [child.tag] and [child.text] ([None] is
    Python's [None], the text of an element without content). *)
Record element : Type := Element { tag : string; text : option string }.

(** A row of [csv.DictReader]: a column absent from the header is an absent
    key, a column the row is too short for has the value [None]. *)
Abbreviation tsv_row := (gmap string (option string)).

(** What the library parsers give for a path: the children of each ENT of
    [ET.parse(path).getroot().findall('.//ENT')], the rows of
    [csv.DictReader(file, delimiter='\t')] and the text of [file.read()]. *)
Record World : Type := {
  et_findall : string -> result (list (list element));
  csv_rows : string -> result (list tsv_row);
  file_read : string -> result string
}.

(** ** The program *)

(** The [elif 'COMPANY' in ent] branch of [parse_address]. *)
Definition company_branch (ent : gmap string string) (address : addr_dict) : addr_dict :=
  match ent !! "COMPANY" with
  | Some c => <["organization" := Py.strip c]> address
  | None => address
  end.

(** [parse_address] *)
Definition parse_address (ent : gmap string string) : result addr_dict :=
  let address : addr_dict := ∅ in
  address ←
    match ent !! "NAME" with
    | Some n =>
        if Py.truthy (Py.strip n) then
          let name_parts := Py.split_ws n in
          l ← index_last name_parts;
          Ok (<["name" := Py.join " " (removelast name_parts) ++ " " ++ l]> address)
        else Ok (company_branch ent address)
    | None => Ok (company_branch ent address)
    end;
  street ← getitem ent "STREET";
  let address := <["street" := Py.strip street]> address in
  city ← getitem ent "CITY";
  let address := <["city" := Py.strip city]> address in
  state ← getitem ent "STATE";
  let address := <["state" := Py.strip state]> address in
  postal ← getitem ent "POSTAL_CODE";
  let address := <["zip" := Py.replace " -" "" (Py.strip postal)]> address in
  Ok address.

(** [{child.tag: child.text for child in ent if child.text}]: one child
    at a time; [None] and the empty string are false. *)
Definition entry_step (entry : gmap string string) (child : element) : gmap string string :=
  match text child with
  | Some t => if Py.truthy t then <[tag child := t]> entry else entry
  | None => entry
  end.

Definition xml_entry (ent : list element) : gmap string string :=
  foldl entry_step ∅ ent.

(** The body of the loop of [read_xml]. *)
Definition read_xml_ent (ent : list element) : result addr_dict :=
  parse_address (xml_entry ent).

Definition read_xml (w : World) (filename : string) : result (list addr_dict) :=
  ents ← et_findall w filename;
  for_each read_xml_ent ents.

(** [row[k].strip()] *)
Definition strip_col (row : tsv_row) (k : string) : result string :=
  v ← getitem row k;
  match v with
  | Some s => Ok (Py.strip s)
  | None => Raise AttributeError
  end.

(** The body of the loop of [read_tsv]. *)
Definition read_tsv_row (row : tsv_row) : result addr_dict :=
  organization ← strip_col row "organization";
  street ← strip_col row "address";
  city ← strip_col row "city";
  state ← strip_col row "state";
  zip ← strip_col row "zip";
  let address : addr_dict :=
    <["zip" := zip]> (<["state" := state]> (<["city" := city]>
      (<["street" := street]> (<["organization" := organization]> ∅)))) in
  first ← strip_col row "first";
  cond ← (if Py.truthy first then Ok true
          else last ← strip_col row "last"; Ok (Py.truthy last));
  if cond : bool then
    first ← strip_col row "first";
    last ← strip_col row "last";
    Ok (<["name" := first ++ " " ++ last]> address)
  else Ok address.

Definition read_tsv (w : World) (filename : string) : result (list addr_dict) :=
  rows ← csv_rows w filename;
  for_each read_tsv_row rows.

(** The body of the loop of [read_txt]. *)
Definition read_txt_entry (entry : string) : result addr_dict :=
  let lines := Py.split nl entry in
  l0 ← index lines 0;
  let name := Py.strip l0 in
  l1 ← index lines 1;
  let street := Py.strip l1 in
  l3 ← index lines 3;
  let city_state_zip := Py.split "," l3 in
  c0 ← index city_state_zip 0;
  let city := Py.strip c0 in
  c1 ← index city_state_zip 1;
  let state_zip := Py.split_ws c1 in
  s0 ← index state_zip 0;
  let state := Py.strip s0 in
  s1 ← index state_zip 1;
  let zip_code := Py.strip s1 in
  Ok (<["zip" := zip_code]> (<["state" := state]> (<["city" := city]>
        (<["street" := street]> (<["name" := name]> ∅))))).

Definition read_txt (w : World) (filename : string) : result (list addr_dict) :=
  content ← file_read w filename;
  for_each read_txt_entry (Py.split nlnl content).

(** [list.sort(key=...)] computes the key of every element once, then sorts
    stably, comparing keys with [<] only.  The model is the insertion sort
    that puts each element in front of the first one whose key is not below
    its own. *)
Fixpoint insert_key {A : Type} (x : string * A) (l : list (string * A)) : list (string * A) :=
  match l with
  | [] => [x]
  | y :: l' => if String.ltb y.1 x.1 then y :: insert_key x l' else x :: y :: l'
  end.

Fixpoint stable_sort {A : Type} (l : list (string * A)) : list (string * A) :=
  match l with
  | [] => []
  | x :: l' => insert_key x (stable_sort l')
  end.

(** [all_addresses.sort(key=itemgetter('zip'))] *)
Definition sort_by_zip (all_addresses : list addr_dict) : result (list addr_dict) :=
  keys ← for_each (fun a : addr_dict => getitem a "zip") all_addresses;
  Ok ((stable_sort (zip keys all_addresses)).*2).

(** How the loop of [main] ends: all files read, [sys.exit] after a message
    on the error stream, or an exception nobody catches. *)
Inductive loop_end : Type :=
| Completed (all_addresses : list addr_dict)
| Exited (msg : string) (code : Z)
| Uncaught (e : exn).

Definition extend (all_addresses : list addr_dict) (r : result (list addr_dict))
    (k : list addr_dict -> loop_end) : loop_end :=
  match r with
  | Ok l => k (all_addresses ++ l)%list
  | Raise e => Uncaught e
  end.

Fixpoint main_loop (w : World) (files : list string) (all_addresses : list addr_dict)
    : loop_end :=
  match files with
  | [] => Completed all_addresses
  | file :: rest =>
      if Py.endswith file ".xml" then
        extend all_addresses (read_xml w file) (main_loop w rest)
      else if Py.endswith file ".tsv" then
        extend all_addresses (read_tsv w file) (main_loop w rest)
      else if Py.endswith file ".txt" then
        extend all_addresses (read_txt w file) (main_loop w rest)
      else Exited ("Error: Unsupported file format " ++ file) 1
  end.

(** What a run leaves behind: the list printed as JSON on standard output
    ([None]: nothing was printed), the error stream and the exit status.
    An uncaught exception makes the interpreter print a traceback on the
    error stream and exit with status 1; [argparse] refuses an empty list of
    files with a usage message and status 2. *)
Inductive err_line : Type :=
| Message (s : string)
| Usage
| Traceback (e : exn).

Record process : Type := {
  stdout : option (list addr_dict);
  stderr : list err_line;
  status : Z
}.

Definition uncaught (e : exn) : process :=
  {| stdout := None; stderr := [Traceback e]; status := 1 |}.

Definition main (w : World) (files : list string) : process :=
  match files with
  | [] => {| stdout := None; stderr := [Usage]; status := 2 |}
  | _ =>
      match main_loop w files [] with
      | Completed all_addresses =>
          match sort_by_zip all_addresses with
          | Ok sorted => {| stdout := Some sorted; stderr := []; status := 0 |}
          | Raise e => uncaught e
          end
      | Exited msg code => {| stdout := None; stderr := [Message msg]; status := code |}
      | Uncaught e => uncaught e
      end
  end.

(** ** Where a record comes from *)

(** One source record: the children of an ENT, a row, or an entry of a
    plain-text file. *)
Inductive source : Type :=
| FromXml (ent : list element)
| FromTsv (row : tsv_row)
| FromTxt (entry : string).

(** The reader's loop body for each kind of source record. *)
Definition normalize (s : source) : result addr_dict :=
  match s with
  | FromXml ent => read_xml_ent ent
  | FromTsv row => read_tsv_row row
  | FromTxt entry => read_txt_entry entry
  end.

(** [file] is dispatched to reader number [n] of the [if] chain of [main]. *)
Definition is_xml (file : string) : Prop := Py.endswith file ".xml" = true.
Definition is_tsv (file : string) : Prop :=
  Py.endswith file ".xml" = false /\ Py.endswith file ".tsv" = true.
Definition is_txt (file : string) : Prop :=
  Py.endswith file ".xml" = false /\ Py.endswith file ".tsv" = false
  /\ Py.endswith file ".txt" = true.


(** [s] is a source record of [file], as the reader chosen for [file] sees it. *)
Definition source_of (w : World) (file : string) (s : source) : Prop :=
  match s with
  | FromXml ent => is_xml file /\ exists ents, et_findall w file = Ok ents /\ ent ∈ ents
  | FromTsv row => is_tsv file /\ exists rows, csv_rows w file = Ok rows /\ row ∈ rows
  | FromTxt entry =>
      is_txt file /\ exists content,
        file_read w file = Ok content /\ entry ∈ Py.split nlnl content
  end.

(** The reader that the [if] chain of [main] picks for [file]; [None] for
    an extension it does not know. *)
Definition read_file (w : World) (file : string) : option (result (list addr_dict)) :=
  if Py.endswith file ".xml" then Some (read_xml w file)
  else if Py.endswith file ".tsv" then Some (read_tsv w file)
  else if Py.endswith file ".txt" then Some (read_txt w file)
  else None.

(** ** Properties of strings and records used in the statements *)

Definition first_char (s : string) : option ascii :=
  match s with String c _ => Some c | EmptyString => None end.

Fixpoint last_char (s : string) : option ascii :=
  match s with
  | EmptyString => None
  | String c EmptyString => Some c
  | String _ r => last_char r
  end.

(** No whitespace at either end. *)
Definition trimmed (s : string) : Prop :=
  (forall c, first_char s = Some c -> Py.isspace c = false)
  /\ (forall c, last_char s = Some c -> Py.isspace c = false).

(** Every character is whitespace. *)
Fixpoint all_space (s : string) : bool :=
  match s with
  | EmptyString => true
  | String c r => Py.isspace c && all_space r
  end.

(** No character of [s] is whitespace. *)
Fixpoint no_space (s : string) : bool :=
  match s with
  | EmptyString => true
  | String c r => negb (Py.isspace c) && no_space r
  end.

(** The entry has a NAME that is not empty after trimming: the test of the
    first branch of [parse_address]. *)
Definition has_name_info (ent : gmap string string) : bool :=
  match ent !! "NAME" with
  | Some n => Py.truthy (Py.strip n)
  | None => false
  end.

(** The four address fields that [parse_address] sets. *)
Definition xml_fields (street city state postal : string) (ident : addr_dict) : addr_dict :=
  <["zip" := Py.replace " -" "" (Py.strip postal)]> (<["state" := Py.strip state]>
    (<["city" := Py.strip city]> (<["street" := Py.strip street]> ident))).

(** The record of a row whose seven columns hold these values. *)
Definition tsv_record (first last organization street city state zip : string) : addr_dict :=
  let address : addr_dict :=
    <["zip" := Py.strip zip]> (<["state" := Py.strip state]> (<["city" := Py.strip city]>
      (<["street" := Py.strip street]> (<["organization" := Py.strip organization]> ∅)))) in
  if Py.truthy (Py.strip first) || Py.truthy (Py.strip last)
  then <["name" := Py.strip first ++ " " ++ Py.strip last]> address
  else address.

(** The seven columns of a row. *)
Definition row_columns (row : tsv_row)
    (first last organization street city state zip : string) : Prop :=
  row !! "first" = Some (Some first) /\ row !! "last" = Some (Some last)
  /\ row !! "organization" = Some (Some organization)
  /\ row !! "address" = Some (Some street) /\ row !! "city" = Some (Some city)
  /\ row !! "state" = Some (Some state) /\ row !! "zip" = Some (Some zip).

Definition has_key (k : string) (a : addr_dict) : Prop := is_Some (a !! k).

(** Not both of [name] and [organization]. *)
Definition at_most_one_identity (a : addr_dict) : Prop :=
  ~ (has_key "name" a /\ has_key "organization" a).



(** A decorated record carries its own [zip] as key. *)
Definition keyed (p : string * addr_dict) : Prop := p.2 !! "zip" = Some p.1.

(** Order of the decorated list that [sort] works on. *)
Definition key_le {A : Type} (x y : string * A) : Prop := String.le x.1 y.1.

(** Order of the output: the [zip] of the first is not above the [zip] of
    the second, in the code-point order of strings. *)
Definition zip_le (a b : addr_dict) : Prop :=
  match a !! "zip", b !! "zip" with
  | Some x, Some y => String.le x y
  | _, _ => False
  end.

(** The records of [l] whose [zip] is [z], in the order of [l]. *)
Definition with_zip (z : string) (l : list addr_dict) : list addr_dict :=
  filter (fun a : addr_dict => a !! "zip" = Some z) l.

Arguments Py.isspace : simpl never.
Arguments ascii_dec : simpl never.

(** ** Sample inputs *)

Module Samples.

Definition el (t s : string) : element := Element t (Some s).

(** A person, an organization and an entry with a one-word name. *)
Definition ent_person : list element :=
  [el "NAME" "  John   Q   Public  "; Element "COMPANY" None;
   el "STREET" " 12 Main St "; el "CITY" "Springfield"; el "STATE" "IL";
   el "POSTAL_CODE" "12345 -6789"].

Definition ent_company : list element :=
  [Element "NAME" None; el "COMPANY" " Acme Corp ";
   el "STREET" "1 Factory Rd"; el "CITY" "Dayton"; el "STATE" "OH";
   el "POSTAL_CODE" "02134"].

Definition ent_single : list element :=
  [el "NAME" "Cher"; el "STREET" "1 Sunset Blvd"; el "CITY" "Malibu";
   el "STATE" "CA"; el "POSTAL_CODE" "90265"].

Definition ent_blank_company : list element :=
  [el "COMPANY" "   "; el "STREET" "9 Side St"; el "CITY" "Reno";
   el "STATE" "NV"; el "POSTAL_CODE" "89501"].

Definition ent_zip_gap : list element :=
  [el "COMPANY" "Acme"; el "STREET" "9 Side St"; el "CITY" "Reno";
   el "STATE" "NV"; el "POSTAL_CODE" "12345  -"].

Definition row (first last organization address city state zip : string) : tsv_row :=
  <["first" := Some first]> (<["last" := Some last]>
    (<["organization" := Some organization]> (<["address" := Some address]>
      (<["city" := Some city]> (<["state" := Some state]>
        (<["zip" := Some zip]> ∅)))))).

Definition row_both : tsv_row :=
  row "Jane" " Doe " "Acme Corp" "5 Elm St" "Boston" "MA" "9999".

Definition row_dash : tsv_row :=
  row "" "" "Initech" "7 Oak Ave" "Austin" "TX" "12345 -6789".

Definition txt_entry : string :=
  "Ann Lee" ++ nl ++ "3 Pine Rd" ++ nl ++ "Apt 4" ++ nl ++ "Salem, OR 12345".

Definition txt_no_comma : string :=
  "Ann Lee" ++ nl ++ "3 Pine Rd" ++ nl ++ "Apt 4" ++ nl ++ "Salem OR 12345".

(** A directory with one file of each kind. *)
Definition world : World := {|
  et_findall f :=
    if String.eqb f "a.xml" then Ok [ent_person; ent_company]
    else if String.eqb f "single.xml" then Ok [ent_single]
    else if String.eqb f "gap.xml" then Ok [ent_zip_gap]
    else Raise OSError;
  csv_rows f :=
    if String.eqb f "b.tsv" then Ok [row_both]
    else if String.eqb f "d.tsv" then Ok [row_dash]
    else Raise OSError;
  file_read f :=
    if String.eqb f "c.txt" then Ok (txt_entry ++ nlnl ++ txt_entry)
    else if String.eqb f "bad.txt" then Ok (txt_entry ++ nlnl ++ txt_no_comma)
    else if String.eqb f "tail.txt" then Ok (txt_entry ++ nlnl)
    else Raise OSError
|}.

(** The records of these files. *)
Definition rec_person : addr_dict :=
  xml_fields " 12 Main St " "Springfield" "IL" "12345 -6789" {["name" := "John Q Public"]}.

Definition rec_company : addr_dict :=
  xml_fields "1 Factory Rd" "Dayton" "OH" "02134" {["organization" := "Acme Corp"]}.

Definition rec_jane : addr_dict :=
  tsv_record "Jane" " Doe " "Acme Corp" "5 Elm St" "Boston" "MA" "9999".

Definition rec_dash : addr_dict :=
  tsv_record "" "" "Initech" "7 Oak Ave" "Austin" "TX" "12345 -6789".

Definition rec_ann : addr_dict :=
  <["zip" := "12345"]> (<["state" := "OR"]> (<["city" := "Salem"]>
    (<["street" := "3 Pine Rd"]> (<["name" := "Ann Lee"]> ∅)))).

Definition files_all : list string := ["a.xml"; "b.tsv"; "c.txt"].

Definition out_all : list addr_dict :=
  [rec_company; rec_ann; rec_ann; rec_person; rec_jane].

End Samples.

(** ** Further definitions for the statements *)

(** The keys that [parse_address] reads with [ent[...]], in the order it
    reads them. *)
Definition required_keys : list string := ["STREET"; "CITY"; "STATE"; "POSTAL_CODE"].

(** The keys that [parse_address] looks at. *)
Definition address_keys : list string := "NAME" :: "COMPANY" :: required_keys.

(** The columns that [read_tsv] reads. *)
Definition tsv_columns : list string :=
  ["organization"; "address"; "city"; "state"; "zip"; "first"; "last"].

(** The text of a child is absent or empty. *)
Definition empty_text (ch : element) : Prop := text ch = None \/ text ch = Some "".

(** No whitespace in front. *)
Definition trimmed_left (s : string) : Prop :=
  forall c, first_char s = Some c -> Py.isspace c = false.

(** The record of a plain-text entry with these fields. *)
Definition txt_record (name street city state zip : string) : addr_dict :=
  <["zip" := zip]> (<["state" := state]> (<["city" := city]>
    (<["street" := street]> (<["name" := name]> ∅)))).

(** Further sample inputs. *)
Module MoreSamples.

Definition ent_no_street : list element :=
  [Samples.el "NAME" "Ann Lee"; Samples.el "CITY" "Salem"; Samples.el "STATE" "OR";
   Samples.el "POSTAL_CODE" "97301"].

Definition ent_extra_tag : list element :=
  [Samples.el "NAME" "Ann Lee"; Samples.el "COUNTRY" "US";
   Samples.el "STREET" "3 Pine Rd"; Samples.el "CITY" "Salem";
   Samples.el "STATE" "OR"; Samples.el "POSTAL_CODE" "97301"].

Definition ent_two_streets : list element :=
  [Samples.el "STREET" "old"; Samples.el "STREET" " 3 Pine Rd ";
   Element "STREET" None; Samples.el "CITY" "Salem";
   Samples.el "STATE" "OR"; Samples.el "POSTAL_CODE" "97301"].

Definition row_last_only : tsv_row :=
  Samples.row "" "Doe" "" "5 Elm St" "Boston" "MA" "02134".

Definition row_short : tsv_row :=
  <["zip" := None]> Samples.row_both.

Definition world : World := {|
  et_findall f :=
    if String.eqb f "ok.xml" then Ok [Samples.ent_company; Samples.ent_person]
    else if String.eqb f "bad.xml" then Ok [Samples.ent_company; ent_no_street]
    else Raise ParseError;
  csv_rows f :=
    if String.eqb f "ok.tsv" then Ok [Samples.row_both]
    else if String.eqb f "short.tsv" then Ok [Samples.row_both; row_short]
    else Raise OSError;
  file_read f :=
    if String.eqb f "ok.txt" then Ok (Samples.txt_entry ++ nl)
    else Raise OSError
|}.

End MoreSamples.

(** * Properties *)

(** ** Strings *)

Section StringFacts.

Implicit Types (s r t : string) (c : ascii).

Lemma prefix_empty s : String.prefix "" s = true.
Proof. destruct s; reflexivity. Qed.

Lemma prefix_app s r : String.prefix s (s ++ r) = true.
Proof.
  induction s as [|a s IH]; [apply prefix_empty|].
  simpl. by destruct (ascii_dec a a).
Qed.

Lemma prefix_sp_dash s :
  String.prefix " -" s = true <-> exists r, s = String " " (String "-" r).
Proof.
  split.
  - destruct s as [|a [|b r]]; simpl; try discriminate.
    + destruct (ascii_dec " " a); discriminate.
    + destruct (ascii_dec " " a) as [<-|]; [|discriminate].
      destruct (ascii_dec "-" b) as [<-|]; [|discriminate]. eauto.
  - intros [r ->]. simpl. repeat (destruct (ascii_dec _ _); [|done]).
    apply prefix_empty.
Qed.


Lemma contains_cons sub c r :
  Py.contains sub (String c r) = false ->
  String.prefix sub (String c r) = false /\ Py.contains sub r = false.
Proof. simpl. intros H. apply orb_false_iff in H. exact H. Qed.

Lemma lstrip_first s c :
  first_char (Py.lstrip s) = Some c -> Py.isspace c = false.
Proof.
  induction s as [|a s IH]; simpl; [discriminate|].
  destruct (Py.isspace a) eqn:Ha; [exact IH|].
  simpl. intros [= <-]. exact Ha.
Qed.

Lemma rstrip_first s c :
  first_char (Py.rstrip s) = Some c -> first_char s = Some c.
Proof.
  destruct s as [|a s]; simpl; [discriminate|].
  destruct (Py.rstrip s); [destruct (Py.isspace a)|]; simpl; congruence.
Qed.

Lemma rstrip_last s c :
  last_char (Py.rstrip s) = Some c -> Py.isspace c = false.
Proof.
  induction s as [|a s IH]; simpl; [discriminate|].
  destruct (Py.rstrip s) as [|b r] eqn:E.
  - destruct (Py.isspace a) eqn:Ha; simpl; [discriminate|].
    intros [= <-]. exact Ha.
  - exact IH.
Qed.

(** The result of [strip] has no whitespace at either end. *)
Lemma strip_trimmed s : trimmed (Py.strip s).
Proof.
  split; intros c H.
  - apply rstrip_first in H. eapply lstrip_first, H.
  - eapply rstrip_last, H.
Qed.

End StringFacts.

Section Tokens.

Implicit Types (s r t : string) (c : ascii).

Lemma isspace_space : Py.isspace " " = true.
Proof. reflexivity. Qed.

Lemma no_space_lstrip t : no_space t = true -> Py.lstrip t = t.
Proof.
  destruct t as [|a t]; simpl; [done|].
  intros [Ha _]%andb_true_iff. apply negb_true_iff in Ha. by rewrite Ha.
Qed.

Lemma no_space_rstrip t : no_space t = true -> Py.rstrip t = t.
Proof.
  induction t as [|a t IH]; simpl; [done|].
  intros [Ha Ht]%andb_true_iff. apply negb_true_iff in Ha.
  rewrite (IH Ht). destruct t; [by rewrite Ha | done].
Qed.

Lemma no_space_strip t : no_space t = true -> Py.strip t = t.
Proof.
  intros H. unfold Py.strip. rewrite (no_space_lstrip _ H).
  by apply no_space_rstrip.
Qed.

Lemma no_space_trimmed t : no_space t = true -> trimmed t.
Proof. intros H. rewrite <- (no_space_strip _ H). apply strip_trimmed. Qed.

(** A string without whitespace has no occurrence of " -". *)
Lemma no_space_contains t : no_space t = true -> Py.contains " -" t = false.
Proof.
  induction t as [|a t IH]; [done|].
  cbn [no_space Py.contains String.prefix].
  intros [Ha Ht]%andb_true_iff. rewrite (IH Ht), orb_false_r.
  destruct (ascii_dec " " a) as [<-|]; [|done].
  by rewrite isspace_space in Ha.
Qed.

(** The pieces of [s.split()] are free of whitespace. *)
Lemma split_ws_no_space s t : t ∈ Py.split_ws s -> no_space t = true.
Proof.
  revert t. induction s as [|c r IH]; intros t; cbn [Py.split_ws].
  - by intros ?%elem_of_nil.
  - destruct (Py.isspace c) eqn:Hc; [apply IH|].
    destruct r as [|c' r'].
    + intros ->%list_elem_of_singleton. simpl. by rewrite Hc.
    + destruct (Py.isspace c') eqn:Hc'.
      * intros [->|Ht]%elem_of_cons; [simpl; by rewrite Hc | by apply IH].
      * destruct (Py.split_ws (String c' r')) as [|t0 ts] eqn:E.
        -- intros ->%list_elem_of_singleton. simpl. by rewrite Hc.
        -- intros [->|Ht]%elem_of_cons.
           ++ simpl. rewrite Hc. apply IH. left.
           ++ apply IH. by right.
Qed.

Lemma replace_go_0 old new c r :
  Py.replace_go old new 0 (String c r) =
  if String.prefix old (String c r)
  then new ++ Py.replace_go old new (String.length old - 1) r
  else String c (Py.replace_go old new 0 r).
Proof. reflexivity. Qed.

Lemma replace_match r :
  Py.replace " -" "" (String " " (String "-" r)) = Py.replace " -" "" r.
Proof.
  unfold Py.replace. rewrite replace_go_0.
  by rewrite (proj2 (prefix_sp_dash _) (ex_intro _ r eq_refl)).
Qed.

Lemma replace_keep c r :
  String.prefix " -" (String c r) = false ->
  Py.replace " -" "" (String c r) = String c (Py.replace " -" "" r).
Proof. intros H. unfold Py.replace. by rewrite replace_go_0, H. Qed.

(** A dash at the head of the result was at the head of the argument, or
    came to the head when a " -" in front of it was removed. *)
Lemma replace_first_dash r :
  first_char (Py.replace " -" "" r) = Some "-"%char ->
  first_char r = Some "-"%char \/ String.prefix " -" r = true.
Proof.
  destruct r as [|c r]; [done|].
  destruct (String.prefix " -" (String c r)) eqn:E; [by right|].
  rewrite (replace_keep _ _ E). by left.
Qed.

Lemma replace_no_sp_dash_aux n : forall s,
  String.length s <= n ->
  Py.contains "  -" s = false ->
  Py.contains " -" (Py.replace " -" "" s) = false.
Proof.
  induction n as [|n IH]; intros s Hn Hs.
  - destruct s; [done | simpl in Hn; lia].
  - destruct s as [|c r]; [done|].
    destruct (String.prefix " -" (String c r)) eqn:E.
    + apply prefix_sp_dash in E as [r' [= -> ->]].
      rewrite replace_match. apply IH; [simpl in Hn; lia|].
      apply contains_cons in Hs as [_ Hs].
      by apply contains_cons in Hs as [_ Hs].
    + rewrite (replace_keep _ _ E).
      apply contains_cons in Hs as [Hp Hs].
      cbn [Py.contains]. rewrite (IH r); [|simpl in Hn; lia|done].
      rewrite orb_false_r. apply not_true_is_false. intros Hq.
      apply prefix_sp_dash in Hq as [q [= -> Hq]].
      assert (first_char (Py.replace " -" "" r) = Some "-"%char) as Hf
        by (by rewrite Hq).
      apply replace_first_dash in Hf as [Hf|Hf].
      * destruct r as [|d r]; [done|]. injection Hf as ->.
        destruct (eq_true_false_abs _ (prefix_app " -" r) E).
      * apply prefix_sp_dash in Hf as [r' ->].
        destruct (eq_true_false_abs _ (prefix_app "  -" r') Hp).
Qed.

(** Removing " -" leaves no " -" behind when no " -" of the argument comes
    after a further space. *)
Lemma replace_no_sp_dash s :
  Py.contains "  -" s = false ->
  Py.contains " -" (Py.replace " -" "" s) = false.
Proof. by apply (replace_no_sp_dash_aux (String.length s)). Qed.

End Tokens.

Section Splitting.

Implicit Types (s r : string) (c : ascii).

Lemma app_cons c r s : String c r ++ s = String c (r ++ s).
Proof. reflexivity. Qed.

Lemma split_go_0 sep c r :
  Py.split_go sep 0 (String c r) =
  if String.prefix sep (String c r)
  then EmptyString :: Py.split_go sep (String.length sep - 1) r
  else Py.cons_head c (Py.split_go sep 0 r).
Proof. reflexivity. Qed.






End Splitting.

(** ** Loops and exceptions *)

Section Loops.

Context {A B : Type} (f : A -> result B).

Lemma for_each_Forall2 l ys :
  for_each f l = Ok ys -> Forall2 (fun x y => f x = Ok y) l ys.
Proof.
  revert ys. induction l as [|x l IH]; intros ys; simpl.
  - intros [= <-]. constructor.
  - destruct (f x) as [y|] eqn:Hx; [|done]. simpl.
    destruct (for_each f l) as [ys'|]; [|done]. simpl.
    intros [= <-]. constructor; [done | by apply IH].
Qed.

Lemma Forall2_for_each l ys :
  Forall2 (fun x y => f x = Ok y) l ys -> for_each f l = Ok ys.
Proof. induction 1 as [|x y l ys Hx _ IH]; simpl; [done|]. by rewrite Hx, IH. Qed.


End Loops.

(** ** The three readers *)

Ltac inv_bind H :=
  match type of H with
  | (?m ≫= _) = Ok _ =>
      let E := fresh "E" in
      destruct m eqn:E; simpl in H; [|discriminate H]
  end.

Tactic Notation "inv_bind" hyp(H) "as" ident(x) ident(E) :=
  match type of H with
  | (?m ≫= _) = Ok _ => destruct m as [x|] eqn:E; simpl in H; [|discriminate H]
  end.

Section Readers.

Lemma getitem_Ok {V : Type} (d : gmap string V) k v :
  getitem d k = Ok v <-> d !! k = Some v.
Proof. unfold getitem. destruct (d !! k); split; congruence. Qed.

Lemma index_Ok {A : Type} (l : list A) i x : index l i = Ok x <-> l !! i = Some x.
Proof. unfold index. destruct (l !! i); split; congruence. Qed.

Lemma strip_col_Ok row k v :
  strip_col row k = Ok v <-> exists s, row !! k = Some (Some s) /\ v = Py.strip s.
Proof.
  unfold strip_col, getitem. destruct (row !! k) as [[s|]|]; simpl; split.
  - intros [= <-]. eauto.
  - intros (s' & [= <-] & ->). done.
  - done.
  - intros (s' & [=] & _).
  - done.
  - intros (s' & [=] & _).
Qed.

(** The branch of [parse_address] that sets [name] or [organization]. *)
Lemma parse_address_inv ent a :
  parse_address ent = Ok a ->
  exists street city state postal ident,
    ent !! "STREET" = Some street /\ ent !! "CITY" = Some city
    /\ ent !! "STATE" = Some state /\ ent !! "POSTAL_CODE" = Some postal
    /\ a = xml_fields street city state postal ident
    /\ ((exists n l, ent !! "NAME" = Some n /\ has_name_info ent = true
           /\ last (Py.split_ws n) = Some l
           /\ ident = {["name" := Py.join " " (removelast (Py.split_ws n)) ++ " " ++ l]})
        \/ (has_name_info ent = false /\ ident = company_branch ent ∅)).
Proof.
  unfold parse_address. intros H.
  inv_bind H as ident E. inv_bind H as st E0. inv_bind H as ci E1.
  inv_bind H as sa E2. inv_bind H as po E3.
  injection H as <-.
  apply getitem_Ok in E0, E1, E2, E3.
  eexists _, _, _, _, _. repeat (split; [eassumption|]). split; [reflexivity|].
  unfold has_name_info.
  destruct (ent !! "NAME") as [n|] eqn:En.
  - destruct (Py.truthy (Py.strip n)) eqn:Hn.
    + inv_bind E as l' E4. injection E as <-. left.
      unfold index_last in E4. destruct (last (Py.split_ws n)) as [l|] eqn:El; [|done].
      injection E4 as <-. by exists n, l.
    + injection E as <-. by right.
  - injection E as <-. by right.
Qed.

Lemma parse_address_Ok ent street city state postal :
  ent !! "STREET" = Some street -> ent !! "CITY" = Some city ->
  ent !! "STATE" = Some state -> ent !! "POSTAL_CODE" = Some postal ->
  has_name_info ent = false ->
  parse_address ent = Ok (xml_fields street city state postal (company_branch ent ∅)).
Proof.
  intros Hs Hc Ht Hp Hn. unfold parse_address, has_name_info, getitem in *.
  rewrite Hs, Hc, Ht, Hp.
  destruct (ent !! "NAME") as [n|]; [rewrite Hn|]; reflexivity.
Qed.

Lemma read_tsv_row_inv row a :
  read_tsv_row row = Ok a ->
  exists first last organization street city state zip,
    row_columns row first last organization street city state zip
    /\ a = tsv_record first last organization street city state zip.
Proof.
  unfold read_tsv_row. intros H.
  inv_bind H as o Eo. inv_bind H as s Es. inv_bind H as c Ec.
  inv_bind H as t Et. inv_bind H as z Ez. inv_bind H as f Ef.
  inv_bind H as cond Econd.
  apply strip_col_Ok in Eo as (org & Ho & ->), Es as (street & Hs & ->),
    Ec as (city & Hc & ->), Et as (state & Ht & ->), Ez as (zp & Hz & ->),
    Ef as (first & Hf & ->).
  assert (exists last, row !! "last" = Some (Some last)
          /\ a = tsv_record first last org street city state zp) as (last & Hl & ->).
  { unfold tsv_record. destruct (Py.truthy (Py.strip first)) eqn:Hfirst.
    - injection Econd as <-. inv_bind H as l El. injection H as <-.
      apply strip_col_Ok in El as (last & Hl & ->). by exists last.
    - inv_bind Econd as l El. injection Econd as <-.
      apply strip_col_Ok in El as (last & Hl & ->). exists last.
      split; [done|]. simpl.
      destruct (Py.truthy (Py.strip last)) eqn:Hlast; by injection H as <-. }
  by exists first, last, org, street, city, state, zp.
Qed.

Lemma read_tsv_row_Ok row first last organization street city state zip :
  row_columns row first last organization street city state zip ->
  read_tsv_row row = Ok (tsv_record first last organization street city state zip).
Proof.
  intros (Hf & Hl & Ho & Hs & Hc & Ht & Hz).
  unfold read_tsv_row, strip_col, getitem, tsv_record.
  rewrite Hf, Hl, Ho, Hs, Hc, Ht, Hz. simpl.
  destruct (Py.truthy (Py.strip first)); simpl; [done|].
  destruct (Py.truthy (Py.strip last)); done.
Qed.

Lemma read_txt_entry_inv entry a :
  read_txt_entry entry = Ok a ->
  exists l0 l1 l3 c0 c1 s0 s1,
    Py.split nl entry !! 0 = Some l0 /\ Py.split nl entry !! 1 = Some l1
    /\ Py.split nl entry !! 3 = Some l3
    /\ Py.split "," l3 !! 0 = Some c0 /\ Py.split "," l3 !! 1 = Some c1
    /\ Py.split_ws c1 !! 0 = Some s0 /\ Py.split_ws c1 !! 1 = Some s1
    /\ a = <["zip" := Py.strip s1]> (<["state" := Py.strip s0]>
             (<["city" := Py.strip c0]> (<["street" := Py.strip l1]>
               (<["name" := Py.strip l0]> ∅)))).
Proof.
  unfold read_txt_entry. intros H.
  inv_bind H as l0 E. inv_bind H as l1 E0. inv_bind H as l3 E1.
  inv_bind H as c0 E2. inv_bind H as c1 E3. inv_bind H as s0 E4.
  inv_bind H as s1 E5. injection H as <-.
  apply index_Ok in E, E0, E1, E2, E3, E4, E5.
  eexists _, _, _, _, _, _, _. repeat (split; [eassumption|]). reflexivity.
Qed.

End Readers.

(** ** The stable sort *)

Section StableSort.

Context {A : Type}.
Implicit Types (x y : string * A) (l : list (string * A)).

Lemma ltb_le (s1 s2 : string) : String.ltb s1 s2 = true -> String.le s1 s2.
Proof.
  unfold String.ltb, String.le, String.leb.
  by destruct (String.compare s1 s2); simpl.
Qed.

Lemma not_ltb_le (s1 s2 : string) : String.ltb s1 s2 = false -> String.le s2 s1.
Proof.
  unfold String.ltb, String.le, String.leb.
  rewrite (String.compare_antisym s2 s1).
  by destruct (String.compare s1 s2); simpl.
Qed.

Lemma ltb_irrefl (s : string) : String.ltb s s = false.
Proof.
  unfold String.ltb. destruct (String.compare s s) eqn:E; try done.
  pose proof (String.compare_antisym s s) as H. rewrite E in H. done.
Qed.

Lemma insert_key_perm x l : insert_key x l ≡ₚ x :: l.
Proof.
  induction l as [|y l IH]; simpl; [done|].
  destruct (String.ltb y.1 x.1); [|done].
  rewrite IH. apply Permutation_swap.
Qed.

Lemma stable_sort_perm l : stable_sort l ≡ₚ l.
Proof.
  induction l as [|x l IH]; simpl; [done|].
  by rewrite insert_key_perm, IH.
Qed.

Lemma insert_key_HdRel x y l :
  key_le y x -> HdRel key_le y l -> HdRel key_le y (insert_key x l).
Proof.
  intros Hyx Hl. destruct l as [|y' l]; simpl; [by constructor|].
  destruct (String.ltb y'.1 x.1); constructor; [by inversion Hl | done].
Qed.

Lemma insert_key_sorted x l : Sorted key_le l -> Sorted key_le (insert_key x l).
Proof.
  induction 1 as [|y l Hl IH Hhd]; simpl; [by repeat constructor|].
  destruct (String.ltb y.1 x.1) eqn:E.
  - constructor; [done|]. apply insert_key_HdRel; [|done]. by apply ltb_le.
  - constructor; [by constructor|]. constructor. by apply not_ltb_le.
Qed.

Lemma stable_sort_sorted l : Sorted key_le (stable_sort l).
Proof.
  induction l as [|x l IH]; simpl; [constructor|]. by apply insert_key_sorted.
Qed.

(** Insertion does not change the order among the elements of one key. *)
Lemma insert_key_filter (z : string) x l :
  filter (fun p : string * A => p.1 = z) (insert_key x l)
  = filter (fun p : string * A => p.1 = z) (x :: l).
Proof.
  induction l as [|y l IH]; simpl; [done|].
  destruct (String.ltb y.1 x.1) eqn:E; [|done].
  rewrite (filter_cons _ y), IH, !filter_cons.
  destruct (decide (y.1 = z)) as [Hy|]; [|done].
  destruct (decide (x.1 = z)) as [Hx|]; [|done].
  rewrite Hy, Hx, ltb_irrefl in E. done.
Qed.

Lemma stable_sort_filter (z : string) l :
  filter (fun p : string * A => p.1 = z) (stable_sort l)
  = filter (fun p : string * A => p.1 = z) l.
Proof.
  induction l as [|x l IH]; simpl; [done|].
  by rewrite insert_key_filter, !filter_cons, IH.
Qed.

End StableSort.

(** ** Sorting the records by [zip] *)

Section SortByZip.

Implicit Types (a b : addr_dict) (l all out : list addr_dict).

#[local] Instance zip_le_trans : Transitive zip_le.
Proof.
  intros a b c. unfold zip_le.
  destruct (a !! "zip"), (b !! "zip"), (c !! "zip"); try done.
  apply transitivity.
Qed.

Lemma keys_keyed all keys :
  for_each (fun a : addr_dict => getitem a "zip") all = Ok keys ->
  length keys = length all /\ Forall keyed (zip keys all).
Proof.
  intros H%for_each_Forall2. induction H as [|a k all keys Hk _ [IH1 IH2]]; simpl.
  - split; [done | constructor].
  - split; [by rewrite IH1|]. constructor; [|done].
    by apply getitem_Ok in Hk.
Qed.

Lemma sorted_keyed (l : list (string * addr_dict)) :
  Forall keyed l -> Sorted key_le l -> Sorted zip_le l.*2.
Proof.
  intros Hk Hs. induction Hs as [|p l Hs IH Hhd]; simpl; [constructor|].
  apply Forall_cons in Hk as [Hp Hk]. constructor; [by apply IH|].
  destruct Hhd as [|q l Hpq]; simpl; constructor.
  apply Forall_cons in Hk as [Hq _]. unfold zip_le, keyed in *.
  by rewrite Hp, Hq.
Qed.

Lemma filter_keyed (z : string) (l : list (string * addr_dict)) :
  Forall keyed l ->
  with_zip z l.*2 = (filter (fun p : string * addr_dict => p.1 = z) l).*2.
Proof.
  unfold with_zip. induction 1 as [|p l Hp _ IH]; [done|].
  rewrite fmap_cons, !filter_cons, IH. unfold keyed in Hp.
  destruct (decide (p.1 = z)) as [Hz|Hz],
    (decide (p.2 !! "zip" = Some z)) as [Hz'|Hz']; try done.
  - destruct Hz'. by rewrite Hp, Hz.
  - destruct Hz. rewrite Hp in Hz'. by injection Hz'.
Qed.

(** The sort of [main]: a sorted permutation that keeps the records of one
    [zip] in the order they had. *)
Lemma sort_by_zip_spec all out :
  sort_by_zip all = Ok out ->
  out ≡ₚ all /\ StronglySorted zip_le out
  /\ forall z, with_zip z out = with_zip z all.
Proof.
  unfold sort_by_zip. intros H. inv_bind H as keys Ek. injection H as <-.
  apply keys_keyed in Ek as [Hlen Hk].
  assert ((zip keys all).*2 = all) as Hsnd by (apply snd_zip; lia).
  assert (Forall keyed (stable_sort (zip keys all))) as Hk'
    by (by rewrite stable_sort_perm).
  split; [|split].
  - by rewrite stable_sort_perm, Hsnd.
  - apply Sorted_StronglySorted; [apply _|].
    apply sorted_keyed; [done | apply stable_sort_sorted].
  - intros z. rewrite (filter_keyed z _ Hk'), stable_sort_filter.
    by rewrite <- (filter_keyed z _ Hk), Hsnd.
Qed.


End SortByZip.

(** ** The loop of [main] *)

Section MainLoop.

Context (w : World).
Implicit Types (files : list string) (acc all : list addr_dict).

(** The [if] chain of the loop is the choice that [read_file] makes. *)
Lemma main_loop_cons f files acc :
  main_loop w (f :: files) acc =
  match read_file w f with
  | Some r => extend acc r (main_loop w files)
  | None => Exited ("Error: Unsupported file format " ++ f) 1
  end.
Proof.
  simpl. unfold read_file.
  by destruct (Py.endswith f ".xml"), (Py.endswith f ".tsv"), (Py.endswith f ".txt").
Qed.


Lemma main_loop_Completed files acc all :
  main_loop w files acc = Completed all ->
  exists lists,
    Forall2 (fun f l => read_file w f = Some (Ok l)) files lists
    /\ all = (acc ++ concat lists)%list.
Proof.
  revert acc. induction files as [|f files IH]; intros acc.
  - intros [= <-]. exists []. split; [constructor | by rewrite app_nil_r].
  - rewrite main_loop_cons.
    destruct (read_file w f) as [[l|e]|] eqn:E; [|done..].
    intros (lists & Hl & ->)%IH. exists (l :: lists).
    split; [by constructor | by rewrite <- app_assoc].
Qed.



Lemma main_stdout files out :
  stdout (main w files) = Some out ->
  exists all, main_loop w files [] = Completed all /\ sort_by_zip all = Ok out.
Proof.
  unfold main. destruct files as [|f files]; [done|].
  destruct (main_loop w (f :: files) []) as [all| |]; [|done..].
  destruct (sort_by_zip all) as [sorted|] eqn:E; [|done].
  simpl. intros [= <-]. by exists all.
Qed.



End MainLoop.

(** ** From the output back to the source records *)

Section Provenance.

Context (w : World).

Lemma for_each_elem {A B : Type} (f : A -> result B) l ys y :
  for_each f l = Ok ys -> y ∈ ys -> exists x, x ∈ l /\ f x = Ok y.
Proof.
  intros H%for_each_Forall2 [i Hi]%list_elem_of_lookup.
  destruct (Forall2_lookup_r _ _ _ _ _ H Hi) as (x & Hx & Hf).
  exists x. split; [|done]. apply list_elem_of_lookup. by exists i.
Qed.






(** Every record a reader returns is the result of its loop body on one
    of the source records of the file. *)
Lemma read_file_sources file l a :
  read_file w file = Some (Ok l) -> a ∈ l ->
  exists s, source_of w file s /\ normalize s = Ok a.
Proof.
  unfold read_file.
  destruct (Py.endswith file ".xml") eqn:E1;
    [|destruct (Py.endswith file ".tsv") eqn:E2;
      [|destruct (Py.endswith file ".txt") eqn:E3; [|done]]].
  - unfold read_xml. intros [= H] Ha. inv_bind H as ents E.
    destruct (for_each_elem _ _ _ _ H Ha) as (ent & Hent & Hn).
    exists (FromXml ent). split; [|done]. split; [done|]. by exists ents.
  - unfold read_tsv. intros [= H] Ha. inv_bind H as rows E.
    destruct (for_each_elem _ _ _ _ H Ha) as (row & Hrow & Hn).
    exists (FromTsv row). split; [|done]. split; [done|]. by exists rows.
  - unfold read_txt. intros [= H] Ha. inv_bind H as content E.
    destruct (for_each_elem _ _ _ _ H Ha) as (entry & Hentry & Hn).
    exists (FromTxt entry). split; [|done]. split; [done|]. by exists content.
Qed.

Lemma main_sources files out a :
  stdout (main w files) = Some out -> a ∈ out ->
  exists file s, file ∈ files /\ source_of w file s /\ normalize s = Ok a.
Proof.
  intros (all & Hloop & Hsort)%main_stdout Ha.
  apply sort_by_zip_spec in Hsort as (Hperm & _).
  rewrite Hperm in Ha.
  apply main_loop_Completed in Hloop as (lists & Hl & ->). simpl in Ha.
  apply list_elem_of_In, in_concat in Ha as (l & Hin & Ha).
  apply list_elem_of_In, list_elem_of_lookup in Hin as [i Hi].
  destruct (Forall2_lookup_r _ _ _ _ _ Hl Hi) as (file & Hfile & Hr).
  destruct (read_file_sources file l a Hr) as (s & Hs & Hn); [by apply list_elem_of_In|].
  exists file, s. split; [|done]. apply list_elem_of_lookup. by exists i.
Qed.

End Provenance.

(** ** Fields of the records *)

Section Fields.

Implicit Types (ent : list element) (m ident : gmap string string) (k : string).

Lemma xml_entry_app pre post :
  xml_entry (pre ++ post) = foldl entry_step (xml_entry pre) post.
Proof. unfold xml_entry. apply foldl_app. Qed.

(** A child whose text is absent or empty leaves the mapping as it is. *)
Lemma entry_step_empty m k t :
  t = None \/ t = Some "" -> entry_step m (Element k t) = m.
Proof. by intros [-> | ->]. Qed.

Lemma foldl_step_other m l k :
  Forall (fun ch => tag ch <> k) l -> foldl entry_step m l !! k = m !! k.
Proof.
  intros H. revert m. induction H as [|ch l Hch _ IH]; intros m; simpl; [done|].
  rewrite IH. unfold entry_step. destruct (text ch) as [t|]; [|done].
  destruct (Py.truthy t); [|done]. by rewrite lookup_insert_ne.
Qed.

Lemma xml_entry_absent ent k :
  Forall (fun ch => tag ch <> k) ent -> xml_entry ent !! k = None.
Proof. intros H. unfold xml_entry. by rewrite foldl_step_other. Qed.

(** The last child with tag [k], when its text is not empty, gives the
    value of [k]. *)
Lemma xml_entry_last pre post k t :
  Py.truthy t = true -> Forall (fun ch => tag ch <> k) post ->
  xml_entry (pre ++ Element k (Some t) :: post) !! k = Some t.
Proof.
  intros Ht Hpost. rewrite xml_entry_app. simpl.
  rewrite foldl_step_other by done. unfold entry_step. simpl. rewrite Ht.
  apply lookup_insert_eq.
Qed.

Lemma xml_fields_lookup street city state postal ident :
  let a := xml_fields street city state postal ident in
  a !! "street" = Some (Py.strip street) /\ a !! "city" = Some (Py.strip city)
  /\ a !! "state" = Some (Py.strip state)
  /\ a !! "zip" = Some (Py.replace " -" "" (Py.strip postal))
  /\ a !! "name" = ident !! "name" /\ a !! "organization" = ident !! "organization".
Proof. unfold xml_fields. by simplify_map_eq. Qed.

Lemma company_branch_lookup m :
  company_branch m ∅ !! "name" = None
  /\ company_branch m ∅ !! "organization" = Py.strip <$> m !! "COMPANY".
Proof. unfold company_branch. destruct (m !! "COMPANY"); by simplify_map_eq. Qed.

Lemma tsv_record_lookup first last organization street city state zip :
  let a := tsv_record first last organization street city state zip in
  a !! "street" = Some (Py.strip street) /\ a !! "city" = Some (Py.strip city)
  /\ a !! "state" = Some (Py.strip state) /\ a !! "zip" = Some (Py.strip zip)
  /\ a !! "organization" = Some (Py.strip organization)
  /\ a !! "name" = if Py.truthy (Py.strip first) || Py.truthy (Py.strip last)
                   then Some (Py.strip first ++ " " ++ Py.strip last) else None.
Proof.
  unfold tsv_record.
  destruct (Py.truthy (Py.strip first) || Py.truthy (Py.strip last)); by simplify_map_eq.
Qed.

Lemma truthy_nonempty (s : string) : Py.truthy s = true <-> s <> "".
Proof. by destruct s. Qed.

Lemma all_space_lstrip (s : string) : all_space s = true -> Py.lstrip s = "".
Proof.
  induction s as [|c r IH]; simpl; [done|].
  intros [Hc Hr]%andb_true_iff. rewrite Hc. by apply IH.
Qed.

Lemma all_space_strip (s : string) : all_space s = true -> Py.strip s = "".
Proof. intros H. unfold Py.strip. by rewrite all_space_lstrip. Qed.

End Fields.

(** ** Names of the markup reader *)

Section Names.

Lemma string_app_assoc (s1 s2 s3 : string) : (s1 ++ s2) ++ s3 = s1 ++ s2 ++ s3.
Proof. induction s1 as [|c s1 IH]; [done|]. by rewrite !app_cons, IH. Qed.

Lemma join_snoc sep (l : list string) x :
  l <> [] -> Py.join sep (l ++ [x])%list = Py.join sep l ++ sep ++ x.
Proof.
  unfold Py.join. induction l as [|y l IH]; [done|]. intros _.
  destruct l as [|y' l]; [done|].
  change (String.concat sep ((y :: y' :: l) ++ [x])%list)
    with (y ++ sep ++ String.concat sep ((y' :: l) ++ [x])%list).
  rewrite IH by done.
  change (String.concat sep (y :: y' :: l))
    with (y ++ sep ++ String.concat sep (y' :: l)).
  by rewrite !string_app_assoc.
Qed.

(** The [name] that [parse_address] builds from the pieces of NAME. *)
Lemma parse_address_name ent a n :
  parse_address ent = Ok a -> ent !! "NAME" = Some n -> has_name_info ent = true ->
  exists l x, Py.split_ws n = (l ++ [x])%list
    /\ a !! "name" = Some (Py.join " " l ++ " " ++ x).
Proof.
  intros (st & ci & sa & po & ident & _ & _ & _ & _ & -> & Hid)%parse_address_inv Hn Hi.
  destruct Hid as [(n' & x & Hn' & _ & Hlast & ->)|[Hf _]]; [|congruence].
  rewrite Hn in Hn'. injection Hn' as <-.
  destruct (proj1 (last_Some _ _) Hlast) as [l Hl].
  exists l, x. split; [done|].
  destruct (xml_fields_lookup st ci sa po
    {["name" := Py.join " " (removelast (Py.split_ws n)) ++ " " ++ x]})
    as (_ & _ & _ & _ & -> & _).
  rewrite Hl, removelast_last. apply lookup_singleton_eq.
Qed.

(** With two pieces or more, the pieces joined by single spaces. *)
Lemma name_many_tokens ent a n :
  parse_address ent = Ok a -> ent !! "NAME" = Some n -> has_name_info ent = true ->
  2 <= length (Py.split_ws n) ->
  a !! "name" = Some (Py.join " " (Py.split_ws n)).
Proof.
  intros Ha Hn Hi Hlen.
  destruct (parse_address_name _ _ _ Ha Hn Hi) as (l & x & Hl & ->).
  rewrite Hl in *. rewrite join_snoc; [done|].
  intros ->. simpl in Hlen. lia.
Qed.

(** With one piece, a space and the piece. *)
Lemma name_one_token ent a n x :
  parse_address ent = Ok a -> ent !! "NAME" = Some n -> has_name_info ent = true ->
  Py.split_ws n = [x] ->
  a !! "name" = Some (" " ++ x).
Proof.
  intros Ha Hn Hi Hx.
  destruct (parse_address_name _ _ _ Ha Hn Hi) as (l & x' & Hl & ->).
  rewrite Hx in Hl. destruct l as [|y [|? ?]]; simplify_eq/=. done.
Qed.

End Names.

(** ** Which of [name] and [organization] a record has *)

Section Identity.

Lemma xml_identity ent a :
  read_xml_ent ent = Ok a ->
  at_most_one_identity a
  /\ (has_key "name" a <-> has_name_info (xml_entry ent) = true)
  /\ (has_key "organization" a <->
      has_name_info (xml_entry ent) = false /\ has_key "COMPANY" (xml_entry ent)).
Proof.
  unfold read_xml_ent, at_most_one_identity, has_key.
  intros (st & ci & sa & po & ident & _ & _ & _ & _ & -> & Hid)%parse_address_inv.
  destruct (xml_fields_lookup st ci sa po ident) as (_ & _ & _ & _ & -> & ->).
  destruct Hid as [(n & x & _ & Hi & _ & ->)|[Hi ->]]; rewrite Hi.
  - rewrite lookup_singleton_eq, lookup_singleton_ne by done.
    split; [by intros [_ [? ?]]|]. split; [done|].
    split; [by intros [? ?] | by intros [? _]].
  - destruct (company_branch_lookup (xml_entry ent)) as [-> ->].
    rewrite fmap_is_Some.
    split; [by intros [[? ?] _]|]. split; [by split; [intros [? ?]|]|].
    split; [done | by intros [_ ?]].
Qed.

Lemma tsv_identity row a :
  read_tsv_row row = Ok a ->
  has_key "organization" a
  /\ (has_key "name" a <->
      exists first last,
        row !! "first" = Some (Some first) /\ row !! "last" = Some (Some last)
        /\ (Py.strip first <> "" \/ Py.strip last <> "")).
Proof.
  unfold has_key.
  intros (f & l & o & st & ci & sa & z & Hcols & ->)%read_tsv_row_inv.
  destruct (tsv_record_lookup f l o st ci sa z) as (_ & _ & _ & _ & -> & ->).
  destruct Hcols as (Hf & Hl & _).
  split; [done|].
  destruct (Py.truthy (Py.strip f) || Py.truthy (Py.strip l)) eqn:E.
  - split; [|done]. intros _. exists f, l. split; [done|]. split; [done|].
    apply orb_true_iff in E. by rewrite <- !truthy_nonempty.
  - split; [by intros [? ?]|]. intros (f' & l' & Hf' & Hl' & Hne).
    rewrite Hf in Hf'. rewrite Hl in Hl'. simplify_eq.
    apply orb_false_iff in E as [Ef El].
    rewrite <- !truthy_nonempty in Hne. destruct Hne; congruence.
Qed.

Lemma txt_identity entry a :
  read_txt_entry entry = Ok a -> has_key "name" a /\ a !! "organization" = None.
Proof.
  unfold has_key.
  intros (l0 & l1 & l3 & c0 & c1 & s0 & s1 & _ & _ & _ & _ & _ & _ & _ & ->)%read_txt_entry_inv.
  by simplify_map_eq.
Qed.

End Identity.

(** * The claims *)

(** C1, as stated, fails: the tabular reader sets [organization] in every
    record and adds [name] to it, so the record of a row with a first name
    and an organization has both. *)
Lemma C1_counterexample :
  ~ (forall out a, stdout (main Samples.world ["b.tsv"]) = Some out ->
                   a ∈ out -> at_most_one_identity a).
Proof.
  intros H. apply (H [Samples.rec_jane] Samples.rec_jane).
  - by vm_compute.
  - left.
  - split; eexists; by vm_compute.
Qed.

(** C1 (amended): every record of the output comes from a source record
    of one of the files and, by the kind of that source record:
    - markup: [name] and [organization] are not both present; [name] is
      present exactly when the NAME of the entry is not empty after
      trimming, and [organization] exactly when it is not so and the entry
      has a COMPANY with a non-empty text;
    - tabular: [organization] is present, and [name] is present as well
      exactly when [first] or [last] is not empty after trimming;
    - plain text: [name] is present and [organization] is not. *)
Theorem C1_identity_fields (w : World) (files : list string)
    (out : list addr_dict) (a : addr_dict) :
  stdout (main w files) = Some out -> a ∈ out ->
  exists file s,
    file ∈ files /\ source_of w file s /\ normalize s = Ok a
    /\ match s with
       | FromXml ent =>
           at_most_one_identity a
           /\ (has_key "name" a <-> has_name_info (xml_entry ent) = true)
           /\ (has_key "organization" a <->
               has_name_info (xml_entry ent) = false
               /\ has_key "COMPANY" (xml_entry ent))
       | FromTsv row =>
           has_key "organization" a
           /\ (has_key "name" a <->
               exists first last,
                 row !! "first" = Some (Some first)
                 /\ row !! "last" = Some (Some last)
                 /\ (Py.strip first <> "" \/ Py.strip last <> ""))
       | FromTxt _ => has_key "name" a /\ a !! "organization" = None
       end.
Proof.
  intros Hout Ha.
  destruct (main_sources w files out a Hout Ha) as (file & s & Hfile & Hs & Hn).
  exists file, s. repeat (split; [done|]).
  destruct s as [ent|row|entry]; simpl in Hn.
  - by apply xml_identity.
  - by apply tsv_identity.
  - by apply (txt_identity entry).
Qed.

Lemma C1_identity_fields_witness :
  stdout (main Samples.world Samples.files_all) = Some Samples.out_all
  /\ Samples.rec_jane ∈ Samples.out_all
  /\ exists file s,
       file ∈ Samples.files_all /\ source_of Samples.world file s
       /\ normalize s = Ok Samples.rec_jane.
Proof.
  assert (stdout (main Samples.world Samples.files_all) = Some Samples.out_all) as Hout
    by (vm_compute; reflexivity).
  assert (Samples.rec_jane ∈ Samples.out_all) as Hin
    by (do 4 right; left).
  split; [exact Hout|]. split; [exact Hin|].
  destruct (C1_identity_fields Samples.world Samples.files_all Samples.out_all
              Samples.rec_jane Hout Hin) as (file & s & Hfile & Hs & Hn & _).
  by exists file, s.
Defined.

Section Zip.

Lemma xml_zip ent a :
  read_xml_ent ent = Ok a ->
  exists postal, xml_entry ent !! "POSTAL_CODE" = Some postal
    /\ a !! "zip" = Some (Py.replace " -" "" (Py.strip postal)).
Proof.
  intros (st & ci & sa & po & ident & _ & _ & _ & Hp & -> & _)%parse_address_inv.
  exists po. split; [done|]. apply xml_fields_lookup.
Qed.

Lemma tsv_zip row a :
  read_tsv_row row = Ok a ->
  exists zc, row !! "zip" = Some (Some zc) /\ a !! "zip" = Some (Py.strip zc).
Proof.
  intros (f & l & o & st & ci & sa & z & Hcols & ->)%read_tsv_row_inv.
  exists z. split; [apply Hcols | apply tsv_record_lookup].
Qed.

(** The [zip] of a plain-text record is a piece of a split on whitespace. *)
Lemma txt_zip entry a :
  read_txt_entry entry = Ok a -> exists z, a !! "zip" = Some z /\ no_space z = true.
Proof.
  intros (l0 & l1 & l3 & c0 & c1 & s0 & s1 & _ & _ & _ & _ & _ & _ & Hs1 & ->)%read_txt_entry_inv.
  assert (no_space s1 = true) as Hns.
  { apply (split_ws_no_space c1). apply list_elem_of_lookup. by exists 1. }
  exists s1. rewrite (no_space_strip _ Hns). split; [by simplify_map_eq | done].
Qed.

End Zip.

(** C2, as stated, fails: the tabular reader only trims [zip], so a [zip]
    column "12345 -6789" reaches the output with its " -". *)
Lemma C2_counterexample :
  ~ (forall out a z, stdout (main Samples.world ["d.tsv"]) = Some out ->
                     a ∈ out -> a !! "zip" = Some z -> Py.contains " -" z = false).
Proof.
  intros H.
  specialize (H [Samples.rec_dash] Samples.rec_dash "12345 -6789").
  assert (Py.contains " -" "12345 -6789" = true) as Hc by (by vm_compute).
  rewrite H in Hc; [done|by vm_compute|left|by vm_compute].
Qed.

(** C2 (amended): every record of the output comes from a source record
    of one of the files, and its [zip] is, by the kind of that source
    record:
    - markup: the trimmed POSTAL_CODE with the occurrences of " -" found
      from left to right removed; it has no " -" when no " -" of the
      trimmed POSTAL_CODE comes after a further space;
    - tabular: the trimmed [zip] column, nothing removed;
    - plain text: a string without " -".
    POSTAL_CODE "12345 -6789" gives "123456789", and "12345-6789" stays. *)
Theorem C2_zip_sp_dash (w : World) (files : list string)
    (out : list addr_dict) (a : addr_dict) :
  stdout (main w files) = Some out -> a ∈ out ->
  (exists file s z,
     file ∈ files /\ source_of w file s /\ normalize s = Ok a
     /\ a !! "zip" = Some z
     /\ match s with
        | FromXml ent =>
            exists postal,
              xml_entry ent !! "POSTAL_CODE" = Some postal
              /\ z = Py.replace " -" "" (Py.strip postal)
              /\ (Py.contains "  -" (Py.strip postal) = false ->
                  Py.contains " -" z = false)
        | FromTsv row => exists zc, row !! "zip" = Some (Some zc) /\ z = Py.strip zc
        | FromTxt _ => Py.contains " -" z = false
        end)
  /\ Py.replace " -" "" (Py.strip "12345 -6789") = "123456789"
  /\ Py.replace " -" "" (Py.strip "12345-6789") = "12345-6789".
Proof.
  intros Hout Ha. split; [|split; reflexivity].
  destruct (main_sources w files out a Hout Ha) as (file & s & Hfile & Hs & Hn).
  destruct s as [ent|row|entry]; simpl in Hn.
  - destruct (xml_zip ent a Hn) as (postal & Hp & Hz).
    exists file, (FromXml ent), (Py.replace " -" "" (Py.strip postal)).
    repeat (split; [done|]). exists postal.
    repeat (split; [done|]). apply replace_no_sp_dash.
  - destruct (tsv_zip row a Hn) as (zc & Hc & Hz).
    exists file, (FromTsv row), (Py.strip zc).
    repeat (split; [done|]). by exists zc.
  - destruct (txt_zip entry a Hn) as (z & Hz & Hns).
    exists file, (FromTxt entry), z.
    repeat (split; [done|]). by apply no_space_contains.
Qed.

Lemma C2_zip_sp_dash_witness :
  stdout (main Samples.world Samples.files_all) = Some Samples.out_all
  /\ Samples.rec_person ∈ Samples.out_all
  /\ exists file s z,
       file ∈ Samples.files_all /\ source_of Samples.world file s
       /\ normalize s = Ok Samples.rec_person
       /\ Samples.rec_person !! "zip" = Some z.
Proof.
  assert (stdout (main Samples.world Samples.files_all) = Some Samples.out_all) as Hout
    by (vm_compute; reflexivity).
  assert (Samples.rec_person ∈ Samples.out_all) as Hin
    by (do 3 right; left).
  split; [exact Hout|]. split; [exact Hin|].
  destruct (C2_zip_sp_dash Samples.world Samples.files_all Samples.out_all
              Samples.rec_person Hout Hin)
    as [(file & s & z & Hfile & Hs & Hn & Hz & _) _].
  by exists file, s, z.
Defined.

(** C3 (the code departs from the claim): a markup file whose only entry
    has the one-word NAME "Cher" is printed with the [name] " Cher", a space
    in front, while the pieces of "Cher" joined by single spaces are "Cher".
    [name_many_tokens] has the equation of the claim for two pieces or
    more, [name_one_token] what happens with one. *)
Theorem C3_single_token_name :
  exists a,
    stdout (main Samples.world ["single.xml"]) = Some [a]
    /\ a !! "name" = Some " Cher"
    /\ Py.join " " (Py.split_ws "Cher") = "Cher".
Proof.
  exists (xml_fields "1 Sunset Blvd" "Malibu" "CA" "90265" {["name" := " Cher"]}).
  split; [|split]; by vm_compute.
Qed.

(** C4: on a run that prints, the files were all read, and the printed
    list is a permutation of their records, taken file after file, that
    is sorted by [zip] in the code-point order of strings and keeps the
    records of each [zip] in the order they were read; "02134" is below
    "12345", which is below "9999". *)
Theorem C4_sorted_stable (w : World) (files : list string) (out : list addr_dict) :
  stdout (main w files) = Some out ->
  (exists lists,
     Forall2 (fun f l => read_file w f = Some (Ok l)) files lists
     /\ out ≡ₚ concat lists
     /\ StronglySorted zip_le out
     /\ forall z, with_zip z out = with_zip z (concat lists))
  /\ String.ltb "02134" "12345" = true /\ String.ltb "12345" "9999" = true.
Proof.
  intros (all & Hloop & Hsort)%main_stdout. split; [|split; reflexivity].
  apply main_loop_Completed in Hloop as (lists & Hl & ->).
  exists lists. split; [done|]. by apply sort_by_zip_spec.
Qed.

Lemma C4_sorted_stable_witness :
  stdout (main Samples.world Samples.files_all) = Some Samples.out_all
  /\ StronglySorted zip_le Samples.out_all.
Proof.
  assert (stdout (main Samples.world Samples.files_all) = Some Samples.out_all) as Hout
    by (vm_compute; reflexivity).
  split; [exact Hout|].
  destruct (C4_sorted_stable Samples.world Samples.files_all Samples.out_all Hout)
    as [(lists & _ & _ & Hs & _) _].
  exact Hs.
Defined.

(** C5: a NAME child without text, or with the empty text, changes
    nothing: the entry with it and the entry without it give the same
    result; and when no other child is a NAME, the record has no [name] and
    has the trimmed COMPANY as [organization] exactly when the entry has a
    COMPANY with a non-empty text. *)
Theorem C5_empty_name_as_absent (pre post : list element) (t : option string) :
  t = None \/ t = Some "" ->
  Forall (fun ch => tag ch <> "NAME") (pre ++ post) ->
  read_xml_ent (pre ++ Element "NAME" t :: post) = read_xml_ent (pre ++ post)
  /\ forall a, read_xml_ent (pre ++ post) = Ok a ->
       a !! "name" = None
       /\ a !! "organization" = Py.strip <$> xml_entry (pre ++ post) !! "COMPANY".
Proof.
  intros Ht Hno. split.
  - unfold read_xml_ent. f_equal. rewrite !xml_entry_app. simpl.
    by rewrite entry_step_empty.
  - unfold read_xml_ent.
    intros a (st & ci & sa & po & ident & _ & _ & _ & _ & -> & Hid)%parse_address_inv.
    destruct (xml_fields_lookup st ci sa po ident) as (_ & _ & _ & _ & -> & ->).
    destruct Hid as [(n & x & Hn & _)|[_ ->]].
    + by rewrite (xml_entry_absent _ "NAME" Hno) in Hn.
    + apply company_branch_lookup.
Qed.

Lemma C5_empty_name_as_absent_witness :
  read_xml_ent Samples.ent_company = read_xml_ent (tail Samples.ent_company).
Proof.
  apply (C5_empty_name_as_absent [] (tail Samples.ent_company) None).
  - by left.
  - simpl. repeat constructor; by vm_compute.
Defined.

Section Malformed.

Context (w : World).




End Malformed.





(** C8: a row with its seven columns gives a record, and the record has
    the [name] made of the trimmed [first], one space and the trimmed [last]
    exactly when one of the two is not empty after trimming; when both are
    empty, the record has no [name]. *)
Theorem C8_tsv_name (row : tsv_row)
    (first last organization street city state zip : string) :
  row_columns row first last organization street city state zip ->
  exists a,
    read_tsv_row row = Ok a
    /\ (a !! "name" = Some (Py.strip first ++ " " ++ Py.strip last)
        <-> Py.strip first <> "" \/ Py.strip last <> "")
    /\ (Py.strip first = "" -> Py.strip last = "" -> a !! "name" = None).
Proof.
  intros Hcols.
  exists (tsv_record first last organization street city state zip).
  split; [by apply read_tsv_row_Ok|].
  destruct (tsv_record_lookup first last organization street city state zip)
    as (_ & _ & _ & _ & _ & ->).
  rewrite <- !truthy_nonempty.
  destruct (Py.truthy (Py.strip first)) eqn:Ef, (Py.truthy (Py.strip last)) eqn:El;
    simpl.
  - split; [by split; [left|] | intros E; by rewrite E in Ef].
  - split; [by split; [left|] | intros E; by rewrite E in Ef].
  - split; [by split; [right|] | intros _ E; by rewrite E in El].
  - split; [|done]. split; [done | by intros [?|?]].
Qed.

Lemma C8_tsv_name_witness :
  exists a, read_tsv_row Samples.row_both = Ok a /\ a !! "name" = Some "Jane Doe".
Proof.
  destruct (C8_tsv_name Samples.row_both "Jane" " Doe " "Acme Corp" "5 Elm St"
              "Boston" "MA" "9999") as (a & Ha & Hname & _).
  - repeat split; reflexivity.
  - exists a. split; [exact Ha|]. apply Hname. left. by vm_compute.
Defined.

Section AddressFields.

(** What holds of the four address fields in every record: all four are
    present, [street], [city] and [state] are trimmed, and so is the [zip]
    of a tabular or plain-text record. *)
Lemma fields_present_trimmed (s : source) (a : addr_dict) :
  normalize s = Ok a ->
  exists street city state zip,
    a !! "street" = Some street /\ a !! "city" = Some city
    /\ a !! "state" = Some state /\ a !! "zip" = Some zip
    /\ trimmed street /\ trimmed city /\ trimmed state
    /\ match s with FromXml _ => True | _ => trimmed zip end.
Proof.
  destruct s as [ent|row|entry]; simpl.
  - intros (st & ci & sa & po & ident & _ & _ & _ & _ & -> & _)%parse_address_inv.
    destruct (xml_fields_lookup st ci sa po ident) as (H1 & H2 & H3 & H4 & _).
    eexists _, _, _, _. repeat (split; [eassumption|]).
    repeat (split; [apply strip_trimmed|]). done.
  - intros (f & l & o & st & ci & sa & z & _ & ->)%read_tsv_row_inv.
    destruct (tsv_record_lookup f l o st ci sa z) as (H1 & H2 & H3 & H4 & _).
    eexists _, _, _, _. repeat (split; [eassumption|]).
    repeat (split; [apply strip_trimmed|]). apply strip_trimmed.
  - intros (l0 & l1 & l3 & c0 & c1 & s0 & s1 & _ & _ & _ & _ & _ & _ & _ & ->)%read_txt_entry_inv.
    exists (Py.strip l1), (Py.strip c0), (Py.strip s0), (Py.strip s1).
    repeat (split; [by simplify_map_eq|]).
    repeat (split; [apply strip_trimmed|]). apply strip_trimmed.
Qed.

End AddressFields.

(** C9 (the code departs from the claim): a markup file whose only entry
    has the POSTAL_CODE "12345  -" (two spaces in front of the dash) is
    printed with the [zip] "12345 ", which ends with a space.  The " -" is
    removed after the trimming, and the space in front of it comes to the
    end.  [fields_present_trimmed] has what holds of the four fields. *)
Theorem C9_zip_trailing_space :
  exists a,
    stdout (main Samples.world ["gap.xml"]) = Some [a]
    /\ a !! "zip" = Some "12345 "
    /\ ~ trimmed "12345 ".
Proof.
  exists (xml_fields "9 Side St" "Reno" "NV" "12345  -" {["organization" := "Acme"]}).
  split; [by vm_compute|]. split; [by vm_compute|].
  intros [_ H]. by specialize (H " "%char eq_refl).
Qed.

(** C10: in an entry whose NAME is absent or empty after trimming, a
    COMPANY child with a text that is not empty and has only whitespace,
    and with no COMPANY child after it, is not dropped: when the four address
    fields are there, the reader gives a record whose [organization] is the
    empty string and which has no [name]. *)
Theorem C10_blank_company (pre post : list element)
    (c street city state postal : string) :
  let ent := (pre ++ Element "COMPANY" (Some c) :: post)%list in
  c <> "" -> all_space c = true ->
  Forall (fun ch => tag ch <> "COMPANY") post ->
  has_name_info (xml_entry ent) = false ->
  xml_entry ent !! "STREET" = Some street ->
  xml_entry ent !! "CITY" = Some city ->
  xml_entry ent !! "STATE" = Some state ->
  xml_entry ent !! "POSTAL_CODE" = Some postal ->
  xml_entry ent !! "COMPANY" = Some c
  /\ exists a,
       read_xml_ent ent = Ok a
       /\ a !! "organization" = Some "" /\ a !! "name" = None.
Proof.
  intros ent Hc Hsp Hpost Hname Hs Hci Hst Hp.
  assert (xml_entry ent !! "COMPANY" = Some c) as Hcomp
    by (apply xml_entry_last; [by apply truthy_nonempty | done]).
  split; [done|].
  exists (xml_fields street city state postal (company_branch (xml_entry ent) ∅)).
  split; [by apply parse_address_Ok|].
  destruct (xml_fields_lookup street city state postal
              (company_branch (xml_entry ent) ∅)) as (_ & _ & _ & _ & -> & ->).
  destruct (company_branch_lookup (xml_entry ent)) as [-> ->].
  split; [|done]. rewrite Hcomp. simpl. by rewrite (all_space_strip c Hsp).
Qed.

Lemma C10_blank_company_witness :
  exists a,
    read_xml_ent Samples.ent_blank_company = Ok a
    /\ a !! "organization" = Some "" /\ a !! "name" = None.
Proof.
  apply (C10_blank_company [] (tail Samples.ent_blank_company)
           "   " "9 Side St" "Reno" "NV" "89501").
  - done.
  - reflexivity.
  - repeat constructor; by vm_compute.
  - by vm_compute.
  - by vm_compute.
  - by vm_compute.
  - by vm_compute.
  - by vm_compute.
Defined.

(** ** Examples *)

Example strip_example : Py.strip "  John   Q   Public  " = "John   Q   Public".
Proof. reflexivity. Qed.

Example split_ws_example :
  Py.split_ws "  John   Q   Public  " = ["John"; "Q"; "Public"].
Proof. reflexivity. Qed.

Example name_example :
  exists a, read_xml_ent Samples.ent_person = Ok a /\ a !! "name" = Some "John Q Public".
Proof. exists Samples.rec_person. split; by vm_compute. Qed.

Example split_comma_example :
  Py.split "," "Springfield, IL 62704" = ["Springfield"; " IL 62704"].
Proof. reflexivity. Qed.

Example split_blank_line_example :
  Py.split nlnl ("a" ++ nlnl ++ nl) = ["a"; nl].
Proof. reflexivity. Qed.

Example replace_rescan_example : Py.replace " -" "" "a  --b" = "a -b".
Proof. reflexivity. Qed.

Example endswith_example :
  Py.endswith "data/input1.xml" ".xml" = true /\ Py.endswith "xml" ".xml" = false.
Proof. split; reflexivity. Qed.

Example run_example :
  main Samples.world Samples.files_all
  = {| stdout := Some Samples.out_all; stderr := []; status := 0 |}.
Proof. by vm_compute. Qed.

(** * Further properties of the program *)

(** ** More on strings *)

Section MoreStrings.

Implicit Types (s r t : string) (c : ascii).

Lemma split_ws_nil s : Py.split_ws s = [] -> all_space s = true.
Proof.
  induction s as [|c r IH]; cbn [Py.split_ws all_space]; [done|].
  destruct (Py.isspace c); [exact IH|].
  destruct r as [|c' r']; [done|].
  destruct (Py.isspace c'); [done|].
  by destruct (Py.split_ws (String c' r')).
Qed.

Lemma all_space_split_ws s : all_space s = true -> Py.split_ws s = [].
Proof.
  induction s as [|c r IH]; cbn [Py.split_ws all_space]; [done|].
  intros [-> Hr]%andb_true_iff. by apply IH.
Qed.

Lemma lstrip_empty s : Py.lstrip s = "" -> all_space s = true.
Proof.
  induction s as [|c r IH]; simpl; [done|].
  destruct (Py.isspace c); [exact IH | done].
Qed.

Lemma rstrip_empty c r : Py.rstrip (String c r) = "" -> Py.isspace c = true.
Proof.
  simpl. destruct (Py.rstrip r); [|done]. by destruct (Py.isspace c).
Qed.

Lemma strip_empty s : Py.strip s = "" -> all_space s = true.
Proof.
  unfold Py.strip. intros H.
  destruct (Py.lstrip s) as [|c r] eqn:E; [by apply lstrip_empty|].
  apply rstrip_empty in H.
  assert (Py.isspace c = false) by (apply (lstrip_first s); by rewrite E).
  congruence.
Qed.

(** [s.strip()] is not empty exactly when [s.split()] has a piece. *)
Lemma strip_truthy_split_ws s :
  Py.truthy (Py.strip s) = true <-> Py.split_ws s <> [].
Proof.
  rewrite truthy_nonempty. split; intros H Hn; apply H.
  - by apply all_space_strip, split_ws_nil.
  - by apply all_space_split_ws, strip_empty.
Qed.

Lemma split_ws_nonempty s t : t ∈ Py.split_ws s -> t <> "".
Proof.
  revert t. induction s as [|c r IH]; intros t; cbn [Py.split_ws].
  - by intros ?%elem_of_nil.
  - destruct (Py.isspace c); [apply IH|].
    destruct r as [|c' r'].
    + by intros ->%list_elem_of_singleton.
    + destruct (Py.isspace c').
      * intros [->|Ht]%elem_of_cons; [done | by apply IH].
      * destruct (Py.split_ws (String c' r')) as [|t0 ts] eqn:E.
        -- by intros ->%list_elem_of_singleton.
        -- intros [->|Ht]%elem_of_cons; [done|]. apply IH. by right.
Qed.

Lemma first_char_app s t : s <> "" -> first_char (s ++ t) = first_char s.
Proof. by destruct s. Qed.

Lemma last_char_app s t : t <> "" -> last_char (s ++ t) = last_char t.
Proof.
  intros Ht. induction s as [|c r IH]; [done|].
  rewrite app_cons. cbn [last_char]. rewrite IH.
  destruct (r ++ t) eqn:E; [|done].
  destruct r; [|done]. by destruct t.
Qed.

(** The first character of a string that does not start with a space
    stays in front when " -" is removed. *)
Lemma replace_first_char c r :
  Py.isspace c = false ->
  first_char (Py.replace " -" "" (String c r)) = Some c.
Proof.
  intros Hc. rewrite replace_keep; [done|].
  simpl. destruct (ascii_dec " " c) as [<-|]; [|done].
  by rewrite isspace_space in Hc.
Qed.

Lemma replace_trimmed_left s : trimmed_left s -> trimmed_left (Py.replace " -" "" s).
Proof.
  intros H. destruct s as [|c r]; [done|].
  intros c'. rewrite replace_first_char by (by apply H).
  intros [= <-]. by apply H.
Qed.

End MoreStrings.

(** ** Splitting on one character *)

Section SplitChar.

Context (d : ascii).
Implicit Types (s r : string) (c : ascii).

Let sep : string := String d EmptyString.

Lemma prefix_char c r : String.prefix sep (String c r) = bool_decide (d = c).
Proof.
  unfold sep. simpl. destruct (ascii_dec d c) as [->|Hne].
  - by rewrite prefix_empty, bool_decide_eq_true_2.
  - by rewrite bool_decide_eq_false_2.
Qed.

Lemma split_char_sep r : Py.split sep (String d r) = "" :: Py.split sep r.
Proof.
  unfold Py.split. rewrite split_go_0, prefix_char, bool_decide_eq_true_2; done.
Qed.

Lemma split_char_other c r :
  d <> c -> Py.split sep (String c r) = Py.cons_head c (Py.split sep r).
Proof.
  intros H. unfold Py.split.
  by rewrite split_go_0, prefix_char, bool_decide_eq_false_2.
Qed.

Lemma split_char_cons s : exists h t, Py.split sep s = h :: t.
Proof.
  induction s as [|c r (h & t & IH)]; [by exists "", []|].
  destruct (decide (d = c)) as [<-|Hne].
  - rewrite split_char_sep. by eexists _, _.
  - rewrite (split_char_other _ _ Hne), IH. by eexists _, _.
Qed.

(** A string without the separator is the only piece. *)
Lemma split_char_none s : Py.contains sep s = false -> Py.split sep s = [s].
Proof.
  induction s as [|c r IH]; [done|].
  intros [Hp Hr]%contains_cons. rewrite prefix_char in Hp.
  apply bool_decide_eq_false in Hp.
  by rewrite (split_char_other _ _ Hp), (IH Hr).
Qed.

(** The pieces of [a + sep + b] are the pieces of [a], then those of [b]. *)
Lemma split_char_app a b :
  Py.split sep (a ++ sep ++ b) = (Py.split sep a ++ Py.split sep b)%list.
Proof.
  induction a as [|c r IH].
  - change ("" ++ sep ++ b) with (String d b). by rewrite split_char_sep.
  - rewrite app_cons. destruct (decide (d = c)) as [<-|Hne].
    + by rewrite !split_char_sep, IH.
    + rewrite !(split_char_other _ _ Hne), IH.
      by destruct (split_char_cons r) as (h & t & ->).
Qed.

(** No piece has the separator in it. *)
Lemma split_char_pieces s p : p ∈ Py.split sep s -> Py.contains sep p = false.
Proof.
  revert p. induction s as [|c r IH]; intros p.
  - by intros ->%list_elem_of_singleton.
  - destruct (decide (d = c)) as [<-|Hne].
    + rewrite split_char_sep. intros [->|Hp]%elem_of_cons; [done | by apply IH].
    + rewrite (split_char_other _ _ Hne).
      destruct (split_char_cons r) as (h & t & E). rewrite E in *. simpl.
      intros [->|Hp]%elem_of_cons; [|apply IH; by right].
      cbn [Py.contains]. rewrite prefix_char, bool_decide_eq_false_2 by done.
      apply IH. left.
Qed.

Lemma contains_char_lstrip s :
  Py.contains sep s = false -> Py.contains sep (Py.lstrip s) = false.
Proof.
  induction s as [|c r IH]; [done|]. intros H. simpl.
  destruct (Py.isspace c); [|done]. apply IH. by apply contains_cons in H as [_ H].
Qed.

Lemma contains_char_rstrip s :
  Py.contains sep s = false -> Py.contains sep (Py.rstrip s) = false.
Proof.
  induction s as [|c r IH]; [done|].
  intros [Hp Hr]%contains_cons. rewrite prefix_char in Hp. simpl.
  destruct (Py.rstrip r) as [|c' r'] eqn:E.
  - destruct (Py.isspace c); [done|].
    cbn [Py.contains]. by rewrite prefix_char, Hp.
  - cbn [Py.contains]. rewrite prefix_char, Hp. by apply IH.
Qed.

Lemma contains_char_strip s :
  Py.contains sep s = false -> Py.contains sep (Py.strip s) = false.
Proof. intros H. by apply contains_char_rstrip, contains_char_lstrip. Qed.

End SplitChar.

(** ** Outcomes of the loop bodies *)

Section Outcomes.

Lemma index_last_Ok (l : list string) : l <> [] -> exists x, index_last l = Ok x.
Proof.
  intros H. unfold index_last. destruct (last l) as [x|] eqn:E; [by exists x|].
  by apply last_None in E.
Qed.

(** The branch of [parse_address] that sets [name] or [organization] never
    raises: [name_parts[-1]] is only reached when NAME has a piece. *)
Lemma parse_address_Raise ent e :
  parse_address ent = Raise e ->
  exists pre k post,
    required_keys = (pre ++ k :: post)%list
    /\ Forall (fun k' => is_Some (ent !! k')) pre
    /\ ent !! k = None /\ e = KeyError k.
Proof.
  unfold parse_address, getitem, required_keys.
  assert (exists ident,
    match ent !! "NAME" with
    | Some n =>
        if Py.truthy (Py.strip n)
        then l ← index_last (Py.split_ws n);
             Ok (<["name" := Py.join " " (removelast (Py.split_ws n)) ++ " " ++ l]> ∅)
        else Ok (company_branch ent ∅)
    | None => Ok (company_branch ent ∅)
    end = Ok ident) as [ident ->].
  { destruct (ent !! "NAME") as [n|]; [|by eexists].
    destruct (Py.truthy (Py.strip n)) eqn:Hn; [|by eexists].
    apply strip_truthy_split_ws, index_last_Ok in Hn as [x ->]. by eexists. }
  simpl.
  destruct (ent !! "STREET") eqn:E1; simpl;
    [|intros [= <-]; by exists [], "STREET", ["CITY"; "STATE"; "POSTAL_CODE"]].
  destruct (ent !! "CITY") eqn:E2; simpl;
    [|intros [= <-]; exists ["STREET"], "CITY", ["STATE"; "POSTAL_CODE"];
      by repeat (split; [by repeat constructor|])].
  destruct (ent !! "STATE") eqn:E3; simpl;
    [|intros [= <-]; exists ["STREET"; "CITY"], "STATE", ["POSTAL_CODE"];
      by repeat (split; [by repeat constructor|])].
  destruct (ent !! "POSTAL_CODE") eqn:E4; simpl; [done|].
  intros [= <-]. exists ["STREET"; "CITY"; "STATE"], "POSTAL_CODE", [].
  by repeat (split; [by repeat constructor|]).
Qed.

Lemma parse_address_present ent :
  (forall k, k ∈ required_keys -> is_Some (ent !! k)) ->
  exists a, parse_address ent = Ok a.
Proof.
  intros H. destruct (parse_address ent) as [a|e] eqn:E; [by exists a|].
  apply parse_address_Raise in E as (pre & k & post & Hk & _ & Hnone & _).
  destruct (H k) as [v Hv]; [|congruence].
  rewrite Hk. apply elem_of_app. right. left.
Qed.

Lemma strip_col_Raise row k e :
  strip_col row k = Raise e ->
  (row !! k = None /\ e = KeyError k) \/ (row !! k = Some None /\ e = AttributeError).
Proof.
  unfold strip_col, getitem. destruct (row !! k) as [[s|]|]; simpl; [done|..].
  - intros [= <-]. by right.
  - intros [= <-]. by left.
Qed.

Ltac tsv_step row k :=
  let E := fresh "E" in
  destruct (strip_col row k) eqn:E; simpl;
  [|intros [= <-]; exists k; split;
    [unfold tsv_columns; set_solver | by apply strip_col_Raise]].

(** A row that raises lacks one of the seven columns, or is too short
    for one. *)
Lemma read_tsv_row_Raise row e :
  read_tsv_row row = Raise e ->
  exists k, k ∈ tsv_columns
    /\ ((row !! k = None /\ e = KeyError k)
        \/ (row !! k = Some None /\ e = AttributeError)).
Proof.
  unfold read_tsv_row.
  tsv_step row "organization". tsv_step row "address". tsv_step row "city".
  tsv_step row "state". tsv_step row "zip". tsv_step row "first".
  match goal with |- context [Py.truthy ?x] => destruct (Py.truthy x) end; simpl.
  - tsv_step row "last". done.
  - tsv_step row "last".
    match goal with |- context [Py.truthy ?x] => destruct (Py.truthy x) end; done.
Qed.

End Outcomes.

(** X1: each reader gives one record per source record, in the order of
    the file: a reader returns a list exactly when the library call
    succeeds and the loop body succeeds on every ENT, row or entry, and the
    list then has the results in that order. *)
Theorem X1_one_record_per_source (w : World) (filename : string) (l : list addr_dict) :
  (read_xml w filename = Ok l <->
   exists ents, et_findall w filename = Ok ents
     /\ Forall2 (fun ent a => read_xml_ent ent = Ok a) ents l)
  /\ (read_tsv w filename = Ok l <->
      exists rows, csv_rows w filename = Ok rows
        /\ Forall2 (fun row a => read_tsv_row row = Ok a) rows l)
  /\ (read_txt w filename = Ok l <->
      exists content, file_read w filename = Ok content
        /\ Forall2 (fun entry a => read_txt_entry entry = Ok a)
             (Py.split nlnl content) l).
Proof.
  unfold read_xml, read_tsv, read_txt. repeat split.
  - intros H. inv_bind H as ents E. exists ents. split; [done|].
    by apply for_each_Forall2.
  - intros (ents & -> & H). simpl. by apply Forall2_for_each.
  - intros H. inv_bind H as rows E. exists rows. split; [done|].
    by apply for_each_Forall2.
  - intros (rows & -> & H). simpl. by apply Forall2_for_each.
  - intros H. inv_bind H as content E. exists content. split; [done|].
    by apply for_each_Forall2.
  - intros (content & -> & H). simpl. by apply Forall2_for_each.
Qed.

(** X2: [parse_address] returns a record exactly when STREET, CITY, STATE
    and POSTAL_CODE are all keys of the entry; otherwise it raises the
    KeyError of the first of them, in that order, that is missing.  NAME
    and COMPANY are never the cause of an exception. *)
Theorem X2_parse_address_outcome (ent : gmap string string) :
  match parse_address ent with
  | Ok a => forall k, k ∈ required_keys -> is_Some (ent !! k)
  | Raise e =>
      exists pre k post,
        required_keys = (pre ++ k :: post)%list
        /\ Forall (fun k' => is_Some (ent !! k')) pre
        /\ ent !! k = None /\ e = KeyError k
  end.
Proof.
  destruct (parse_address ent) as [a|e] eqn:E.
  - apply parse_address_inv in E
      as (st & ci & sa & po & ident & H1 & H2 & H3 & H4 & _).
    unfold required_keys. intros k Hk.
    repeat (apply elem_of_cons in Hk as [->|Hk]; [by eexists|]).
    by apply elem_of_nil in Hk.
  - by apply parse_address_Raise.
Qed.

(** X3: the loop body of [read_tsv] returns a record exactly when the row
    has a string in each of the seven columns; otherwise it raises
    KeyError for a column that the header lacks, or AttributeError for a
    column that the row is too short for. *)
Theorem X3_read_tsv_row_outcome (row : tsv_row) :
  match read_tsv_row row with
  | Ok a =>
      exists first last organization street city state zip,
        row_columns row first last organization street city state zip
        /\ a = tsv_record first last organization street city state zip
  | Raise e =>
      exists k, k ∈ tsv_columns
        /\ ((row !! k = None /\ e = KeyError k)
            \/ (row !! k = Some None /\ e = AttributeError))
  end.
Proof.
  destruct (read_tsv_row row) as [a|e] eqn:E.
  - by apply read_tsv_row_inv.
  - by apply read_tsv_row_Raise.
Qed.

(** ** Runs *)

Section Runs.

Context (w : World).
Implicit Types (files good rest : list string) (lists : list (list addr_dict)).

#[local] Abbreviation reads_ok := (Forall2 (fun f l => read_file w f = Some (Ok l))).

(** The loop goes through files that are read well and appends their
    records. *)
Lemma main_loop_app good lists rest acc :
  reads_ok good lists ->
  main_loop w (good ++ rest) acc = main_loop w rest (acc ++ concat lists).
Proof.
  intros H. revert acc. induction H as [|f l good lists Hf _ IH]; intros acc.
  - by rewrite app_nil_r.
  - change ((f :: good) ++ rest)%list with (f :: (good ++ rest))%list.
    rewrite main_loop_cons, Hf. simpl. rewrite IH. by rewrite <- app_assoc.
Qed.

Lemma main_loop_reads_ok files lists :
  reads_ok files lists -> main_loop w files [] = Completed (concat lists).
Proof.
  intros H. rewrite <- (app_nil_r files). by rewrite (main_loop_app _ _ _ _ H).
Qed.




End Runs.







(** X7: a run that prints, prints as many records as the readers
    returned for all files together. *)
Theorem X7_output_length (w : World) (files : list string) (out : list addr_dict) :
  stdout (main w files) = Some out ->
  exists lists,
    Forall2 (fun f l => read_file w f = Some (Ok l)) files lists
    /\ length out = sum_list (length <$> lists).
Proof.
  intros (all & Hloop & Hsort)%main_stdout.
  apply main_loop_Completed in Hloop as (lists & Hl & ->).
  apply sort_by_zip_spec in Hsort as (Hperm & _).
  exists lists. split; [done|]. rewrite Hperm. simpl.
  clear. induction lists as [|l lists IH]; simpl; [done|].
  by rewrite length_app, IH.
Qed.

Lemma X7_output_length_witness :
  exists lists,
    Forall2 (fun f l => read_file Samples.world f = Some (Ok l)) Samples.files_all lists
    /\ length Samples.out_all = sum_list (length <$> lists).
Proof.
  apply (X7_output_length Samples.world Samples.files_all Samples.out_all).
  vm_compute. reflexivity.
Defined.





(** ** Entries of the markup reader *)

Section Entries.

Implicit Types (m : gmap string string) (k : string).

Lemma entry_step_lookup m ch k :
  entry_step m ch !! k =
  match text ch with
  | Some t => if Py.truthy t && bool_decide (tag ch = k) then Some t else m !! k
  | None => m !! k
  end.
Proof.
  unfold entry_step. destruct (text ch) as [t|]; [|done].
  destruct (Py.truthy t); [|done]. simpl.
  destruct (decide (tag ch = k)) as [->|Hne].
  - by rewrite lookup_insert_eq, bool_decide_eq_true_2.
  - by rewrite lookup_insert_ne, bool_decide_eq_false_2.
Qed.

(** Two mappings with the same value for [k] keep having the same value
    while the same children are added. *)
Lemma foldl_step_agree m1 m2 l k :
  m1 !! k = m2 !! k -> foldl entry_step m1 l !! k = foldl entry_step m2 l !! k.
Proof.
  revert m1 m2. induction l as [|ch l IH]; intros m1 m2 H; simpl; [done|].
  apply IH. by rewrite !entry_step_lookup, H.
Qed.

(** Children with tag [k] and without text do not change the value of [k]. *)
Lemma foldl_step_empty m l k :
  Forall (fun ch => tag ch = k -> empty_text ch) l ->
  foldl entry_step m l !! k = m !! k.
Proof.
  intros H. revert m. induction H as [|ch l Hch _ IH]; intros m; simpl; [done|].
  rewrite IH, entry_step_lookup. destruct (text ch) as [t|] eqn:Et; [|done].
  destruct (Py.truthy t) eqn:Ht; [|done]. simpl.
  destruct (decide (tag ch = k)) as [Hk|Hne]; [|by rewrite bool_decide_eq_false_2].
  destruct (Hch Hk) as [Hn|Hn]; rewrite Et in Hn; [done|].
  injection Hn as ->. done.
Qed.

(** [parse_address] looks at six keys only. *)
Lemma parse_address_agree m1 m2 :
  (forall k, k ∈ address_keys -> m1 !! k = m2 !! k) ->
  parse_address m1 = parse_address m2.
Proof.
  intros H. unfold parse_address, company_branch, getitem.
  rewrite (H "NAME"), (H "COMPANY"), (H "STREET"), (H "CITY"), (H "STATE"),
    (H "POSTAL_CODE"); [done|unfold address_keys, required_keys; set_solver..].
Qed.

End Entries.

(** X10: a child whose tag is none of NAME, COMPANY, STREET, CITY, STATE
    and POSTAL_CODE is ignored: the entry with it and the entry without it
    give the same result. *)
Theorem X10_other_tags_ignored (pre post : list element) (k : string) (t : option string) :
  k ∉ address_keys ->
  read_xml_ent (pre ++ Element k t :: post) = read_xml_ent (pre ++ post).
Proof.
  intros Hk. unfold read_xml_ent. apply parse_address_agree. intros k' Hk'.
  rewrite !xml_entry_app. simpl. apply foldl_step_agree.
  rewrite entry_step_lookup. simpl. destruct t as [t|]; [|done].
  rewrite bool_decide_eq_false_2, andb_false_r; [done|]. by intros ->.
Qed.

Lemma X10_other_tags_ignored_witness :
  read_xml_ent MoreSamples.ent_extra_tag
  = read_xml_ent (Samples.el "NAME" "Ann Lee" :: drop 2 MoreSamples.ent_extra_tag).
Proof.
  apply (X10_other_tags_ignored [Samples.el "NAME" "Ann Lee"]
           (drop 2 MoreSamples.ent_extra_tag) "COUNTRY" (Some "US")).
  unfold address_keys, required_keys. intros H.
  repeat (apply elem_of_cons in H as [H|H]; [discriminate H|]).
  by apply elem_of_nil in H.
Defined.

(** X11: when a tag occurs more than once in an entry, the last child
    with a non-empty text gives the value; children with the same tag and
    an empty text that come after it do not erase it. *)
Theorem X11_last_nonempty_child_wins (pre post : list element) (k t : string) :
  t <> "" ->
  Forall (fun ch => tag ch = k -> empty_text ch) post ->
  xml_entry (pre ++ Element k (Some t) :: post) !! k = Some t.
Proof.
  intros Ht Hpost. rewrite xml_entry_app. simpl.
  rewrite foldl_step_empty by done. rewrite entry_step_lookup. simpl.
  by rewrite (proj2 (truthy_nonempty t) Ht), bool_decide_eq_true_2.
Qed.

Lemma X11_last_nonempty_child_wins_witness :
  xml_entry MoreSamples.ent_two_streets !! "STREET" = Some " 3 Pine Rd ".
Proof.
  apply (X11_last_nonempty_child_wins [Samples.el "STREET" "old"]
           (drop 2 MoreSamples.ent_two_streets) "STREET" " 3 Pine Rd ").
  - done.
  - repeat constructor; unfold empty_text; simpl; intros; (by left) || done.
Defined.

(** X12: every record of the output has [street], [city], [state] and
    [zip]; [street], [city] and [state] have no whitespace at either end;
    [zip] has no whitespace in front, and none at the end either when the
    record comes from a tabular row or a plain-text entry. *)
Theorem X12_address_fields (w : World) (files : list string)
    (out : list addr_dict) (a : addr_dict) :
  stdout (main w files) = Some out -> a ∈ out ->
  exists file s street city state zip,
    file ∈ files /\ source_of w file s /\ normalize s = Ok a
    /\ a !! "street" = Some street /\ a !! "city" = Some city
    /\ a !! "state" = Some state /\ a !! "zip" = Some zip
    /\ trimmed street /\ trimmed city /\ trimmed state /\ trimmed_left zip
    /\ match s with FromXml _ => True | _ => trimmed zip end.
Proof.
  intros Hout Ha.
  destruct (main_sources w files out a Hout Ha) as (file & s & Hfile & Hs & Hn).
  destruct (fields_present_trimmed s a Hn)
    as (st & ci & sa & z & H1 & H2 & H3 & H4 & T1 & T2 & T3 & T4).
  exists file, s, st, ci, sa, z. repeat (split; [done|]). split; [|done].
  destruct s as [ent|row|entry]; [|exact (proj1 T4)..].
  simpl in Hn. destruct (xml_zip ent a Hn) as (po & _ & Hz).
  rewrite H4 in Hz. injection Hz as ->.
  apply replace_trimmed_left. exact (proj1 (strip_trimmed po)).
Qed.

Lemma X12_address_fields_witness :
  exists street, Samples.rec_person !! "street" = Some street /\ trimmed street.
Proof.
  destruct (X12_address_fields Samples.world Samples.files_all Samples.out_all
              Samples.rec_person)
    as (file & s & st & ci & sa & z & _ & _ & _ & H1 & _ & _ & _ & T1 & _).
  - vm_compute. reflexivity.
  - do 3 right. left.
  - by exists st.
Defined.

(** X13: when the NAME of an entry has two pieces or more between its
    whitespace, the [name] of the record is these pieces joined by single
    spaces. *)
Theorem X13_name_joined (ent : list element) (a : addr_dict) (n : string) :
  read_xml_ent ent = Ok a -> xml_entry ent !! "NAME" = Some n ->
  2 <= length (Py.split_ws n) ->
  a !! "name" = Some (Py.join " " (Py.split_ws n)).
Proof.
  intros Ha Hn Hlen. apply (name_many_tokens (xml_entry ent) a n Ha Hn); [|done].
  unfold has_name_info. rewrite Hn. apply strip_truthy_split_ws.
  intros E. rewrite E in Hlen. simpl in Hlen. lia.
Qed.

Lemma X13_name_joined_witness :
  Samples.rec_person !! "name" = Some (Py.join " " ["John"; "Q"; "Public"]).
Proof.
  apply (X13_name_joined Samples.ent_person Samples.rec_person "  John   Q   Public  ").
  - by vm_compute.
  - by vm_compute.
  - vm_compute. lia.
Defined.

(** X14: the [name] of a tabular record has no whitespace at either end
    exactly when [first] and [last] are both not empty after trimming: with
    an empty [first] it starts with the joining space, with an empty [last]
    it ends with it. *)
Theorem X14_tabular_name_ends (row : tsv_row)
    (first last organization street city state zip : string) :
  row_columns row first last organization street city state zip ->
  Py.strip first <> "" \/ Py.strip last <> "" ->
  exists a,
    read_tsv_row row = Ok a
    /\ a !! "name" = Some (Py.strip first ++ " " ++ Py.strip last)
    /\ (trimmed (Py.strip first ++ " " ++ Py.strip last)
        <-> Py.strip first <> "" /\ Py.strip last <> "").
Proof.
  intros Hcols Hne.
  exists (tsv_record first last organization street city state zip).
  split; [by apply read_tsv_row_Ok|]. split.
  - destruct (tsv_record_lookup first last organization street city state zip)
      as (_ & _ & _ & _ & _ & ->).
    rewrite <- !truthy_nonempty in Hne.
    destruct Hne as [-> | ->]; [done | by rewrite orb_true_r].
  - pose proof (strip_trimmed first) as [Hf _].
    pose proof (strip_trimmed last) as [_ Hl].
    split.
    + intros [H1 H2]. split; intros E; rewrite E in *.
      * by specialize (H1 " "%char eq_refl).
      * specialize (H2 " "%char). rewrite last_char_app in H2 by done.
        by specialize (H2 eq_refl).
    + intros [Hf' Hl']. split; intros c.
      * rewrite first_char_app by done. apply Hf.
      * rewrite last_char_app by (by destruct (Py.strip last)).
        rewrite (last_char_app " ") by done. apply Hl.
Qed.

Lemma X14_tabular_name_ends_witness :
  exists a,
    read_tsv_row MoreSamples.row_last_only = Ok a /\ a !! "name" = Some " Doe".
Proof.
  destruct (X14_tabular_name_ends MoreSamples.row_last_only "" "Doe" ""
              "5 Elm St" "Boston" "MA" "02134") as (a & Ha & Hn & _).
  - repeat split; reflexivity.
  - right. by vm_compute.
  - by exists a.
Defined.

(** X15: in a record of the plain-text reader, [city] has no comma, and
    [state] and [zip] are not empty and have no whitespace at all. *)
Theorem X15_text_fields (entry : string) (a : addr_dict) :
  read_txt_entry entry = Ok a ->
  exists city state zip,
    a !! "city" = Some city /\ a !! "state" = Some state /\ a !! "zip" = Some zip
    /\ Py.contains "," city = false
    /\ no_space state = true /\ state <> ""
    /\ no_space zip = true /\ zip <> "".
Proof.
  intros (l0 & l1 & l3 & c0 & c1 & s0 & s1 & _ & _ & _ & Hc0 & _ & Hs0 & Hs1 & ->)%read_txt_entry_inv.
  assert (s0 ∈ Py.split_ws c1) as H0 by (apply list_elem_of_lookup; by exists 0).
  assert (s1 ∈ Py.split_ws c1) as H1 by (apply list_elem_of_lookup; by exists 1).
  pose proof (split_ws_no_space _ _ H0) as N0.
  pose proof (split_ws_no_space _ _ H1) as N1.
  exists (Py.strip c0), s0, s1.
  rewrite (no_space_strip _ N0), (no_space_strip _ N1).
  repeat (split; [by simplify_map_eq|]).
  split.
  2:{ repeat split; [done| |done|].
      - by apply (split_ws_nonempty c1).
      - by apply (split_ws_nonempty c1). }
  apply (contains_char_strip ","%char), (split_char_pieces ","%char l3).
  apply list_elem_of_lookup. by exists 0.
Qed.

Lemma X15_text_fields_witness :
  exists city state zip,
    Samples.rec_ann !! "city" = Some city /\ Samples.rec_ann !! "state" = Some state
    /\ Samples.rec_ann !! "zip" = Some zip
    /\ Py.contains "," city = false
    /\ no_space state = true /\ state <> ""
    /\ no_space zip = true /\ zip <> "".
Proof.
  apply (X15_text_fields Samples.txt_entry Samples.rec_ann). by vm_compute.
Defined.

(** X16: lines after the fourth line of a plain-text entry are ignored:
    with further lines added at its end, an entry of four lines or more
    gives the same result.  A file may so end with a single newline. *)
Theorem X16_lines_after_fourth (entry more : string) :
  4 <= length (Py.split nl entry) ->
  read_txt_entry (entry ++ nl ++ more) = read_txt_entry entry.
Proof.
  intros Hlen. unfold read_txt_entry, index, nl in *.
  rewrite (split_char_app "010"%char entry more).
  by rewrite !lookup_app_l by lia.
Qed.

Lemma X16_lines_after_fourth_witness :
  read_txt_entry (Samples.txt_entry ++ nl ++ "") = read_txt_entry Samples.txt_entry.
Proof.
  apply (X16_lines_after_fourth Samples.txt_entry ""). vm_compute. lia.
Defined.

(** X17: an entry of four lines "name / street / anything / city, state
    zip ..." gives the record with the trimmed name, street and city and
    with the first two pieces after the comma as [state] and [zip]; the third
    line and the pieces after the second are ignored. *)
Theorem X17_text_entry_record (l0 l1 l2 city sz state zip : string)
    (more : list string) :
  Py.contains nl l0 = false -> Py.contains nl l1 = false ->
  Py.contains nl l2 = false -> Py.contains nl (city ++ "," ++ sz) = false ->
  Py.contains "," city = false -> Py.contains "," sz = false ->
  Py.split_ws sz = state :: zip :: more ->
  read_txt_entry (l0 ++ nl ++ l1 ++ nl ++ l2 ++ nl ++ city ++ "," ++ sz)
  = Ok (txt_record (Py.strip l0) (Py.strip l1) (Py.strip city) state zip).
Proof.
  intros H0 H1 H2 H3 Hc Hs Hsz. unfold read_txt_entry, nl in *.
  rewrite !(split_char_app "010"%char), !(split_char_none "010"%char) by done.
  simpl. rewrite (split_char_app ","%char), !(split_char_none ","%char) by done.
  simpl. rewrite Hsz. simpl.
  assert (no_space state = true) as Ns
    by (apply (split_ws_no_space sz); rewrite Hsz; left).
  assert (no_space zip = true) as Nz
    by (apply (split_ws_no_space sz); rewrite Hsz; right; left).
  by rewrite (no_space_strip _ Ns), (no_space_strip _ Nz).
Qed.

Lemma X17_text_entry_record_witness :
  read_txt_entry Samples.txt_entry = Ok Samples.rec_ann.
Proof.
  apply (X17_text_entry_record "Ann Lee" "3 Pine Rd" "Apt 4" "Salem" " OR 12345"
           "OR" "12345" []); reflexivity.
Defined.

(** ** Sorting a list that is in order *)

Section SortedInput.

Lemma le_not_ltb (s1 s2 : string) : String.le s1 s2 -> String.ltb s2 s1 = false.
Proof.
  unfold String.ltb, String.le, String.leb.
  rewrite (String.compare_antisym s2 s1).
  by destruct (String.compare s1 s2); simpl.
Qed.

Lemma insert_key_in_order {A : Type} (x : string * A) l :
  HdRel key_le x l -> insert_key x l = x :: l.
Proof.
  destruct 1 as [|y l Hxy]; simpl; [done|].
  by rewrite (le_not_ltb _ _ Hxy).
Qed.

Lemma stable_sort_in_order {A : Type} (l : list (string * A)) :
  Sorted key_le l -> stable_sort l = l.
Proof.
  induction 1 as [|x l Hl IH Hhd]; simpl; [done|].
  rewrite IH. by apply insert_key_in_order.
Qed.

Lemma keyed_sorted (l : list (string * addr_dict)) :
  Forall keyed l -> Sorted zip_le l.*2 -> Sorted key_le l.
Proof.
  induction 1 as [|p l Hp Hl IH]; simpl; [constructor|].
  intros [Hs Hhd]%Sorted_inv. constructor; [by apply IH|].
  destruct l as [|q l]; constructor.
  apply HdRel_inv in Hhd. apply Forall_cons in Hl as [Hq _].
  unfold zip_le, keyed, key_le in *. by rewrite Hp, Hq in Hhd.
Qed.

Lemma sort_by_zip_in_order all out :
  sort_by_zip all = Ok out -> Sorted zip_le all -> out = all.
Proof.
  unfold sort_by_zip. intros H Hs. inv_bind H as keys Ek. injection H as <-.
  apply keys_keyed in Ek as [Hlen Hk].
  assert ((zip keys all).*2 = all) as Hsnd by (apply snd_zip; lia).
  rewrite stable_sort_in_order; [done|].
  apply keyed_sorted; [done | by rewrite Hsnd].
Qed.

End SortedInput.

(** X18: when the records of the files, taken file after file, are
    already in the order of their [zip], the run prints them in exactly the
    order it read them. *)
Theorem X18_sorted_input_unchanged (w : World) (files : list string)
    (lists : list (list addr_dict)) (out : list addr_dict) :
  stdout (main w files) = Some out ->
  Forall2 (fun f l => read_file w f = Some (Ok l)) files lists ->
  Sorted zip_le (concat lists) ->
  out = concat lists.
Proof.
  intros (all & Hloop & Hsort)%main_stdout Hl Hs.
  rewrite (main_loop_reads_ok w files lists Hl) in Hloop. injection Hloop as <-.
  by apply sort_by_zip_in_order.
Qed.

Lemma X18_sorted_input_unchanged_witness :
  stdout (main MoreSamples.world ["ok.xml"; "ok.tsv"])
  = Some [Samples.rec_company; Samples.rec_person; Samples.rec_jane]
  /\ [Samples.rec_company; Samples.rec_person; Samples.rec_jane]
     = concat [[Samples.rec_company; Samples.rec_person]; [Samples.rec_jane]].
Proof.
  assert (stdout (main MoreSamples.world ["ok.xml"; "ok.tsv"])
          = Some [Samples.rec_company; Samples.rec_person; Samples.rec_jane]) as Hout
    by (vm_compute; reflexivity).
  split; [exact Hout|].
  apply (X18_sorted_input_unchanged MoreSamples.world ["ok.xml"; "ok.tsv"]
           [[Samples.rec_company; Samples.rec_person]; [Samples.rec_jane]]
           [Samples.rec_company; Samples.rec_person; Samples.rec_jane] Hout).
  - repeat constructor.
  - repeat constructor; by vm_compute.
Defined.
